(** * Code Relay command line tool: a shallow embedding of [coderelay.py]

    The program is sequential glue around a JSON catalog, a JSON preference
    file, the file system, the terminal and the [git] binary.  The embedding
    keeps that shape:

    - JSON documents (what [ujson] and [requests] hand to the program) are
      values of [json]; the Python operations the program applies to them
      (subscript, iteration, [in], [==], [str.split]) are total functions
      into [outcome], with the Python exception as the error;
    - the commands run in a state-and-exception monad [M] over a [World]:
      the file system, the unread terminal input, the working directory and
      the trace of observable events (network reads, terminal output,
      prompts, subprocess calls);
    - what the platform decides (the user directories, whether [git] is on
      the PATH, what the network answers, what a subprocess does to the file
      system, the JSON codec, the boolean words [click] accepts) is a record
      [Platform], a variable of the section that holds the commands.

    JSON numbers are integers here; the program never computes with them. *)

From Stdlib Require Import ZArith NArith Ascii.

From stdpp Require Import base option list strings gmap pretty.

Set Warnings "-register-all".

(** ** Outcomes of Python expressions *)

Inductive exn :=
| KeyError (key : string)
| TypeError
| AttributeError
| IndexError
| FileNotFoundError
| FileExistsError
| NotADirectoryError
| IsADirectoryError
| ValueError
| ConnectionError
| Abort.

Inductive outcome (A : Type) :=
| Ok (a : A)
| Raise (e : exn).
Arguments Ok {A} a.
Arguments Raise {A} e.

#[global] Instance outcome_ret : MRet outcome := fun A a => Ok a.
#[global] Instance outcome_bind : MBind outcome := fun A B f x =>
  match x with
  | Ok a => f a
  | Raise e => Raise e
  end.

(** ** JSON values as Python sees them *)

Inductive json :=
| JNull
| JBool (b : bool)
| JInt (n : Z)
| JStr (s : string)
| JArr (items : list json)
| JObj (members : list (string * json)).

(** A Python dict keeps its keys in insertion order and holds each key once;
    the members of a [JObj] are in that order. *)
Fixpoint assoc (key : string) (members : list (string * json)) : option json :=
  match members with
  | [] => None
  | (k, v) :: rest => if String.eqb k key then Some v else assoc key rest
  end.

(** [needle in hay] on two Python strings. *)
Fixpoint str_contains (needle hay : string) : bool :=
  String.prefix needle hay ||
  match hay with
  | EmptyString => false
  | String _ rest => str_contains needle rest
  end.

(** [s.split(sep)] for a one-character separator: every separator splits,
    empty pieces are kept. *)
Fixpoint split_on (sep : Ascii.ascii) (s : string) : list string :=
  match s with
  | EmptyString => [EmptyString]
  | String c rest =>
      if Ascii.eqb c sep then EmptyString :: split_on sep rest
      else match split_on sep rest with
           | piece :: pieces => String c piece :: pieces
           | [] => [String c EmptyString]
           end
  end.

(** [a == b]. Python compares [True] and [1] equal, lists element by element
    and dicts as key-value sets. *)
Fixpoint py_eq (a b : json) {struct a} : bool :=
  match a, b with
  | JNull, JNull => true
  | JBool x, JBool y => Bool.eqb x y
  | JBool x, JInt n => Z.eqb (if x then 1 else 0) n
  | JInt n, JBool x => Z.eqb n (if x then 1 else 0)
  | JInt m, JInt n => Z.eqb m n
  | JStr s, JStr t => String.eqb s t
  | JArr l, JArr r =>
      (fix items (l r : list json) : bool :=
         match l, r with
         | [], [] => true
         | x :: l', y :: r' => py_eq x y && items l' r'
         | _, _ => false
         end) l r
  | JObj o, JObj p =>
      Nat.eqb (length o) (length p) &&
      (fix members (o : list (string * json)) : bool :=
         match o with
         | [] => true
         | (k, v) :: o' =>
             match assoc k p with
             | Some w => py_eq v w
             | None => false
             end && members o'
         end) o
  | _, _ => false
  end.

(** [obj[key]] with a string key. *)
Definition getitem (obj : json) (key : string) : outcome json :=
  match obj with
  | JObj members =>
      match assoc key members with
      | Some v => Ok v
      | None => Raise (KeyError key)
      end
  | _ => Raise TypeError
  end.

(** A byte that continues a UTF-8 sequence ([10xxxxxx]). *)
Definition is_continuation (c : ascii) : bool :=
  let n := N_of_ascii c in (128 <=? n)%N && (n <? 192)%N.

(** The characters of a Python [str]: the UTF-8 text cut before every byte
    that starts a sequence. *)
Fixpoint code_points (s : string) : list string :=
  match s with
  | EmptyString => []
  | String c rest =>
      let chars := code_points rest in
      match rest, chars with
      | String d _, piece :: pieces =>
          if is_continuation d then String c piece :: pieces
          else String c EmptyString :: chars
      | _, _ => String c EmptyString :: chars
      end
  end.

(** The elements a [for] loop visits. *)
Definition py_iter (v : json) : outcome (list json) :=
  match v with
  | JArr items => Ok items
  | JObj members => Ok (map (fun kv => JStr (fst kv)) members)
  | JStr s => Ok (map JStr (code_points s))
  | _ => Raise TypeError
  end.

(** [x in container]. *)
Definition py_contains (x container : json) : outcome bool :=
  match container with
  | JArr items => Ok (existsb (py_eq x) items)
  | JObj members =>
      match x with
      | JStr k => Ok (bool_decide (is_Some (assoc k members)))
      | JArr _ | JObj _ => Raise TypeError
      | _ => Ok false
      end
  | JStr hay =>
      match x with
      | JStr needle => Ok (str_contains needle hay)
      | _ => Raise TypeError
      end
  | _ => Raise TypeError
  end.

(** A value used where Python needs a [str] (a subprocess argument). *)
Definition as_str (v : json) : outcome string :=
  match v with
  | JStr s => Ok s
  | _ => Raise TypeError
  end.

(** [v.encode()]: only a [str] has the method, any other value of a JSON
    document raises [AttributeError]. The bytes are the text as it is. *)
Definition str_encode (v : json) : outcome string :=
  match v with
  | JStr s => Ok s
  | _ => Raise AttributeError
  end.

(** ** The typed view of the two documents (spec section 3) *)

Record Project := {
  p_name : string;
  p_desc : string;
  p_languages : list string;
  p_frameworks : list string;
  p_git : string;
  p_task_desc : string
}.

Record Preferences := {
  z_languages : list string;
  z_frameworks : list string;
  z_excluded_frameworks : list string
}.

Definition tags (l : list string) : json := JArr (map JStr l).

Definition project_json (P : Project) : json :=
  JObj [("name", JStr (p_name P));
        ("desc", JStr (p_desc P));
        ("languages", tags (p_languages P));
        ("frameworks", tags (p_frameworks P));
        ("git", JStr (p_git P));
        ("task", JObj [("desc", JStr (p_task_desc P))])].

Definition prefs_json (Z : Preferences) : json :=
  JObj [("languages", tags (z_languages Z));
        ("frameworks", tags (z_frameworks Z));
        ("excluded_frameworks", tags (z_excluded_frameworks Z))].

(** ** The matcher: [list_repos], lines 84-98 *)

(** [(match, match_color)]. *)
Definition verdict : Type := string * string.

Definition good_match : verdict := ("good match", "green").
Definition new_language : verdict := ("new language", "red").
Definition excluded_framework : verdict := ("excluded framework", "red").
Definition new_framework : verdict := ("new framework", "yellow").

(** [match != "new language"]. *)
Definition not_new_language (m : verdict) : bool :=
  negb (String.eqb (fst m) "new language").

(** Lines 86-90; [config["languages"]] is evaluated at every iteration. *)
Fixpoint language_loop (config : json) (languages : list json) (m : verdict)
  : outcome verdict :=
  match languages with
  | [] => Ok m
  | language :: rest =>
      accepted ← getitem config "languages";
      known ← py_contains language accepted;
      if negb known then Ok new_language
      else language_loop config rest m
  end.

(** Lines 91-98; only the first branch leaves the loop. *)
Fixpoint framework_loop (config : json) (frameworks : list json) (m : verdict)
  : outcome verdict :=
  match frameworks with
  | [] => Ok m
  | framework :: rest =>
      excluded ← getitem config "excluded_frameworks";
      is_excluded ← py_contains framework excluded;
      if is_excluded && not_new_language m then Ok excluded_framework
      else
        accepted ← getitem config "frameworks";
        known ← py_contains framework accepted;
        if negb known && not_new_language m
        then framework_loop config rest new_framework
        else framework_loop config rest m
  end.

Definition classify (project config : json) : outcome verdict :=
  languages ← getitem project "languages";
  languages ← py_iter languages;
  m ← language_loop config languages good_match;
  frameworks ← getitem project "frameworks";
  frameworks ← py_iter frameworks;
  framework_loop config frameworks m.

(** ** The world a command runs in *)

(** A path is the list of its components below the root; the root is [[]]. *)
Definition path : Type := list string.

Inductive node :=
| Dir
| File (content : string).

(** What the tool does that can be seen from outside, in order. *)
Inductive style :=
| Fg (color : string)
| Dim
| Bold.

Inductive event :=
| EvSpinner (label : string)
| EvSpinnerFinish
| EvHttpGet (url : string)
| EvEcho (text : string)
| EvSecho (text : string) (how : style)
| EvPrompt (text : string)
| EvCall (argv : list string) (cwd : path)
| EvOpenFile (target : path).

Record World := {
  w_fs : gmap path node;
  w_stdin : list string;
  w_cwd : path;
  w_trace : list event
}.

Definition with_fs (fs : gmap path node) (w : World) : World :=
  {| w_fs := fs; w_stdin := w_stdin w; w_cwd := w_cwd w; w_trace := w_trace w |}.

Definition with_stdin (lines : list string) (w : World) : World :=
  {| w_fs := w_fs w; w_stdin := lines; w_cwd := w_cwd w; w_trace := w_trace w |}.

Definition with_cwd (p : path) (w : World) : World :=
  {| w_fs := w_fs w; w_stdin := w_stdin w; w_cwd := p; w_trace := w_trace w |}.

Definition with_trace (tr : list event) (w : World) : World :=
  {| w_fs := w_fs w; w_stdin := w_stdin w; w_cwd := w_cwd w; w_trace := tr |}.

(** A command: it ends with a value or a Python exception, and the world it
    leaves behind is there in both cases. *)
Definition M (A : Type) : Type := World -> outcome A * World.

#[global] Instance M_ret : MRet M := fun A a w => (Ok a, w).
#[global] Instance M_bind : MBind M := fun A B f c w =>
  match c w with
  | (Ok a, w') => f a w'
  | (Raise e, w') => (Raise e, w')
  end.

Definition lift {A} (o : outcome A) : M A := fun w => (o, w).

(** Nothing to do (an [if] without [else]). *)
Definition pass : M unit := mret tt.

Definition emit (e : event) : M unit :=
  fun w => (Ok tt, with_trace (w_trace w ++ [e]) w).

(** The subprocess calls among the events. *)
Definition calls (tr : list event) : list (list string) :=
  omap (fun e => match e with EvCall argv _ => Some argv | _ => None end) tr.

(** ** The file system *)

Definition node_at (fs : gmap path node) (p : path) : option node :=
  match p with
  | [] => Some Dir
  | _ => fs !! p
  end.

(** [os.path.dirname] on a path that does not end in a separator. *)
Definition dirname (p : path) : path := removelast p.

(** The error of opening or creating [p] when nothing is at [p]: [None] when
    the parent is a directory, so that [p] can be created. *)
Definition parent_error (fs : gmap path node) (p : path) : option exn :=
  match node_at fs (dirname p) with
  | Some Dir => None
  | Some (File _) => Some NotADirectoryError
  | None => Some FileNotFoundError
  end.

(** [os.makedirs(target, exist_ok=True)]: walking down from [base], a missing
    component is created, a directory is entered, a regular file stops the
    walk ([FileExistsError] when it is the target itself). *)
Fixpoint makedirs_from (base : path) (rest : list string) (fs : gmap path node)
  : outcome (gmap path node) :=
  match rest with
  | [] => Ok fs
  | c :: rest' =>
      let p := base ++ [c] in
      match fs !! p with
      | None => makedirs_from p rest' (<[p := Dir]> fs)
      | Some Dir => makedirs_from p rest' fs
      | Some (File _) =>
          Raise (match rest' with [] => FileExistsError | _ => NotADirectoryError end)
      end
  end.

(** [open(p, "r").read()]. *)
Definition fs_read (p : path) (fs : gmap path node) : outcome string :=
  match node_at fs p with
  | Some (File text) => Ok text
  | Some Dir => Raise IsADirectoryError
  | None =>
      Raise (match parent_error fs p with Some e => e | None => FileNotFoundError end)
  end.

(** [open(p, "w").write(text)]: the file is created or replaced. *)
Definition fs_write (p : path) (text : string) (fs : gmap path node)
  : outcome (gmap path node) :=
  match node_at fs p with
  | Some (File _) => Ok (<[p := File text]> fs)
  | Some Dir => Raise IsADirectoryError
  | None =>
      match parent_error fs p with
      | Some e => Raise e
      | None => Ok (<[p := File text]> fs)
      end
  end.

(** [open(p, "a").write(text)]: the file is created or extended. *)
Definition fs_append (p : path) (text : string) (fs : gmap path node)
  : outcome (gmap path node) :=
  match node_at fs p with
  | Some (File old) => Ok (<[p := File (old +:+ text)]> fs)
  | Some Dir => Raise IsADirectoryError
  | None =>
      match parent_error fs p with
      | Some e => Raise e
      | None => Ok (<[p := File text]> fs)
      end
  end.

(** [shutil.rmtree(p)]: [p] and everything below it goes. *)
Definition fs_rmtree (p : path) (fs : gmap path node) : outcome (gmap path node) :=
  match node_at fs p with
  | Some Dir => Ok (filter (fun kv => ¬ (p `prefix_of` kv.1)) fs)
  | Some (File _) => Raise NotADirectoryError
  | None => Raise FileNotFoundError
  end.

Definition fs_update (f : gmap path node -> outcome (gmap path node)) : M unit :=
  fun w =>
    match f (w_fs w) with
    | Ok fs' => (Ok tt, with_fs fs' w)
    | Raise e => (Raise e, w)
    end.

(** [os.path.exists(p)]. *)
Definition path_exists (p : path) : M bool :=
  fun w => (Ok (bool_decide (is_Some (node_at (w_fs w) p))), w).

Definition makedirs (p : path) : M unit := fs_update (makedirs_from [] p).
Definition read_file (p : path) : M string := fun w => (fs_read p (w_fs w), w).
Definition write_file (p : path) (text : string) : M unit := fs_update (fs_write p text).
Definition append_file (p : path) (text : string) : M unit := fs_update (fs_append p text).
Definition rmtree (p : path) : M unit := fs_update (fs_rmtree p).

(** [os.chdir(p)]. *)
Definition chdir (p : path) : M unit :=
  fun w =>
    match node_at (w_fs w) p with
    | Some Dir => (Ok tt, with_cwd p w)
    | Some (File _) => (Raise NotADirectoryError, w)
    | None => (Raise FileNotFoundError, w)
    end.

(** ** The terminal *)

Definition echo (text : string) : M unit := emit (EvEcho text).
Definition secho (text : string) (how : style) : M unit := emit (EvSecho text how).

(** [click.prompt] reads lines until one converts; an empty line is asked
    again, the end of the input aborts. The value and the unread lines: *)
Fixpoint read_answer {A} (conv : string -> option A) (lines : list string)
  : option (A * list string) :=
  match lines with
  | [] => None
  | line :: rest =>
      match (if String.eqb line "" then None else conv line) with
      | Some a => Some (a, rest)
      | None => read_answer conv rest
      end
  end.

(** The prompt is shown once per line read (and once more at the end of the
    input). *)
Fixpoint prompts_shown {A} (conv : string -> option A) (text : string)
  (lines : list string) : list event :=
  match lines with
  | [] => [EvPrompt text]
  | line :: rest =>
      match (if String.eqb line "" then None else conv line) with
      | Some _ => [EvPrompt text]
      | None => EvPrompt text :: prompts_shown conv text rest
      end
  end.

Definition click_prompt {A} (conv : string -> option A) (text : string) : M A :=
  fun w =>
    let w' := with_trace (w_trace w ++ prompts_shown conv text (w_stdin w)) w in
    match read_answer conv (w_stdin w) with
    | Some (a, rest) => (Ok a, with_stdin rest w')
    | None => (Raise Abort, with_stdin [] w')
    end.

(** ** Strings of the program *)

Definition nl : string := String (Ascii.ascii_of_nat 10) EmptyString.

(** The separator [/]. *)
Definition slash : Ascii.ascii := Ascii.ascii_of_nat 47.

(** ["\n# Code Relay\ncoderelay.json\n"], line 148. *)
Definition ignore_rule : string :=
  nl +:+ "# Code Relay" +:+ nl +:+ "coderelay.json" +:+ nl.

Definition catalog_url : string :=
  "https://api.github.com/repos/KTibow/code-relay/contents/data/available_projects.json".

(** The path as the messages show it. *)
Definition show_path (p : path) : string := "/" +:+ String.concat "/" p.

(** The components of a project name used as the last part of a path: the
    pieces between [/], without the empty ones. The pieces [.] and [..]
    are taken as names, which the operating system does not do: the
    paths built from a name are the ones it resolves for the names without
    such a piece ([ordinary_name] below). *)
Definition name_components (name : string) : path :=
  filter (fun c => c ≠ "") (split_on slash name).

(** The dict literal of line 51. *)
Definition default_config : json :=
  JObj [("languages", JArr []); ("frameworks", JArr []); ("excluded_frameworks", JArr [])].

(** ** What the platform decides *)

Record Platform := {
  (** [platformdirs.user_config_dir()] and [user_documents_dir()] *)
  user_config_dir : path;
  user_documents_dir : path;
  (** [shutil.which("git")] found the binary *)
  which_git : bool;
  (** [requests.get(url).json()] *)
  http_get_json : string -> outcome json;
  (** [base64.decodebytes(s.encode()).decode()] *)
  b64decode : string -> outcome string;
  (** [ujson.loads] / [ujson.load], and [ujson.dump] with its [indent] *)
  ujson_loads : string -> outcome json;
  ujson_dumps : nat -> json -> string;
  (** [str(v)] for a value that is not a string *)
  py_repr : json -> string;
  (** the words [click] converts to a boolean *)
  click_bool : string -> option bool;
  (** what running [argv] in the directory [cwd] does to the file system *)
  run_process : list string -> path -> gmap path node -> gmap path node
}.

Section Commands.

Variable pf : Platform.

(** [str(v)] inside an f-string. *)
Definition py_str (v : json) : string :=
  match v with
  | JStr s => s
  | _ => py_repr pf v
  end.

(** [click.prompt(text, type=bool)] and [click.prompt(text)]. *)
Definition prompt_bool (text : string) : M bool := click_prompt (click_bool pf) text.
Definition prompt_text (text : string) : M string := click_prompt Some text.

(** [subprocess.call(argv)]; the exit code is dropped by every caller. Both
    callers have checked [shutil.which("git")] before. *)
Definition subprocess_call (argv : list string) : M unit :=
  fun w =>
    (Ok tt,
     with_fs (run_process pf argv (w_cwd w) (w_fs w))
       (with_trace (w_trace w ++ [EvCall argv (w_cwd w)]) w)).

(** Modelled from the spec: [cli_utils.cross_platform_open_file], which the
    program imports. It opens the path with the platform's file association
    and returns; what the user does in the editor is not part of the run. *)
Definition cross_platform_open_file (p : path) : M unit := emit (EvOpenFile p).

(** Modelled from the spec: [cli_utils.async_spinner] animates the spinner on
    a daemon thread while [spinner.active] holds; only the start and the
    [finish()] call are events here. *)
Definition spinner_start (label : string) : M unit := emit (EvSpinner label).
Definition spinner_finish : M unit := emit EvSpinnerFinish.

Definition config_path : path :=
  (user_config_dir pf ++ ["coderelay"; "coderelay.json"])%list.

Definition project_path (project_name : string) : path :=
  (user_documents_dir pf ++ "code-relay" :: name_components project_name)%list.

(** [with open(p, "r") as f: ujson.load(f)]. *)
Definition load_json (p : path) : M json :=
  text ← read_file p;
  lift (ujson_loads pf text).

(** Lines 21-33. *)
Definition fetch_repos : M json :=
  spinner_start "⏳ Fetching repos...";;
  emit (EvHttpGet catalog_url);;
  available_projects ← lift (http_get_json pf catalog_url);
  content ← lift (getitem available_projects "content");
  content ← lift (str_encode content);
  available_projects ← lift (b64decode pf content);
  spinner_finish;;
  lift (ujson_loads pf available_projects).

(** Lines 46-54 of [user_prefs]: the preference store. *)
Definition load_or_init_preferences : M json :=
  present ← path_exists config_path;
  (if negb present then
     makedirs (dirname config_path);;
     write_file config_path (ujson_dumps pf 0 default_config)
   else pass);;
  load_json config_path.

Definition user_prefs : M unit :=
  config ← load_or_init_preferences;
  echo "Your preferences:";;
  secho "Languages/frameworks are represented in an ID-ish format based on the full name (eg Tailwind CSS > tailwindcss)" Dim;;
  languages ← lift (getitem config "languages");
  echo ("Languages: " +:+ py_str languages);;
  frameworks ← lift (getitem config "frameworks");
  echo ("Frameworks: " +:+ py_str frameworks);;
  excluded ← lift (getitem config "excluded_frameworks");
  echo ("Excluded frameworks: " +:+ py_str excluded);;
  echo "";;
  change ← prompt_bool "Do you want to change your preferences (y/n)";
  if (change : bool) then cross_platform_open_file config_path else pass.

(** The body of the loop of line 83. *)
Definition show_project (config project : json) : M unit :=
  m ← lift (classify project config);
  name ← lift (getitem project "name");
  desc ← lift (getitem project "desc");
  secho (py_str name +:+ ", " +:+ py_str desc +:+ " " +:+ m.1) (Fg m.2).

Fixpoint for_each {A} (body : A -> M unit) (items : list A) : M unit :=
  match items with
  | [] => mret tt
  | x :: rest => body x;; for_each body rest
  end.

Definition list_repos : M unit :=
  available_projects ← fetch_repos;
  present ← path_exists config_path;
  if negb present then
    echo "Please run `coderelay user-prefs` to configure your preferences."
  else
    config ← load_json config_path;
    projects ← lift (py_iter available_projects);
    for_each (show_project config) projects;;
    echo "Get started on one by running `coderelay start-project <project-name>`.".

(** [next((p for p in available_projects if p["name"] == project_name), None)]. *)
Fixpoint find_project (project_name : string) (projects : list json)
  : outcome (option json) :=
  match projects with
  | [] => Ok None
  | project :: rest =>
      name ← getitem project "name";
      if py_eq name (JStr project_name) then Ok (Some project)
      else find_project project_name rest
  end.

(** Lines 145-148: the ignore rule goes in when the text lacks
    [coderelay.json]. *)
Definition add_ignore_rule (gitignore : path) : M unit :=
  text ← read_file gitignore;
  if negb (str_contains "coderelay.json" text)
  then append_file gitignore ignore_rule
  else pass.

(** Lines 132-163, after the three checks. *)
Definition download_project (project_name : string) (project : json) : M unit :=
  let project_path := project_path project_name in
  spinner_start "⏳ Downloading the code...";;
  makedirs project_path;;
  url ← lift (url ← getitem project "git"; as_str url);
  subprocess_call ["git"; "clone"; url; show_path project_path];;
  add_ignore_rule (project_path ++ [".gitignore"])%list;;
  write_file (project_path ++ ["coderelay.json"])%list (ujson_dumps pf 4 project);;
  spinner_finish;;
  echo ("✅ Project " +:+ project_name +:+ " downloaded to " +:+ show_path project_path +:+ ".");;
  echo "";;
  echo "Remember, have fun in your 15 minutes! 😀";;
  echo ("Once you're done, run `coderelay publish-changes " +:+ project_name +:+ "`.");;
  open_now ← prompt_bool "Do you want to open the project now (y/n)";
  if (open_now : bool) then cross_platform_open_file project_path else pass.

Definition start_project (project_name : string) : M unit :=
  available_projects ← fetch_repos;
  projects ← lift (py_iter available_projects);
  project ← lift (find_project project_name projects);
  let project_path := project_path project_name in
  if negb (which_git pf) then echo "Please install git first."
  else
    match project with
    | None => echo ("Could not find project " +:+ project_name +:+ ".")
    | Some project =>
        present ← path_exists project_path;
        if (present : bool) then
          delete ← prompt_bool ("Project at " +:+ show_path project_path
                                +:+ " already exists. Delete it (y/n)");
          if (delete : bool) then
            rmtree project_path;;
            download_project project_name project
          else echo "Aborting."
        else download_project project_name project
    end.

(** Lines 199-209: in the workspace, point the remote [fork] at the fork
    and stage everything. *)
Definition stage_changes (project_name project_remote_url : string) : M unit :=
  chdir (project_path project_name);;
  subprocess_call ["git"; "remote"; "add"; "fork"; project_remote_url];;
  subprocess_call ["git"; "remote"; "set-url"; "fork"; project_remote_url];;
  subprocess_call ["git"; "add"; "."];;
  secho "Files changed:" Bold;;
  subprocess_call ["git"; "diff"; "--staged"; "--name-only"].

(** Lines 210-222: ask, then commit, push and show the link. *)
Definition confirm_and_upload (project_config : json)
  (project_remote_url : string) : M unit :=
  correct ← prompt_bool "Do these changes look correct? (y/n)";
  if negb correct then echo "Aborting."
  else
    echo "⏳ Uploading your code...";;
    body ← lift (task ← getitem project_config "task";
                 desc ← getitem task "desc";
                 as_str desc);
    subprocess_call ["git"; "commit"; "-m"; "Code Relay"; "-m"; body];;
    subprocess_call ["git"; "push"; "fork"];;
    echo "✅ Your code has been uploaded.";;
    echo "Now, you need to tell code-relay that you're done.";;
    echo "Go to the link below, and click 'Create pull request' twice.";;
    upstream ← lift (getitem project_config "git");
    owner ← lift (match split_on slash project_remote_url !! 3%nat with
                  | Some segment => Ok segment
                  | None => Raise IndexError
                  end);
    echo (py_str upstream +:+ "/compare/main..." +:+ owner +:+ ":main").

Definition publish_changes (project_name : string) : M unit :=
  let project_path := project_path project_name in
  present ← path_exists project_path;
  if negb present then echo ("Could not find project " +:+ project_name +:+ ".")
  else if negb (which_git pf) then echo "Please install git first."
  else
    let project_config_path := (project_path ++ ["coderelay.json"])%list in
    present ← path_exists project_config_path;
    if negb present then echo "Could not find project config."
    else
      project_config ← load_json project_config_path;
      secho "What is a fork?" Bold;;
      echo "Only the authors of the project can publish changes, so you need to fork the project first.";;
      secho "How do you fork?" Bold;;
      upstream ← lift (getitem project_config "git");
      echo ("To fork the project, first open it online at " +:+ py_str upstream +:+ ".");;
      echo "Then, click the 'Fork' button.";;
      echo "coderelay will publish your changes to your fork.";;
      echo "";;
      project_remote_url ← prompt_text
        "What is the URL of your fork (example: https://github.com/username/project-name)";
      stage_changes project_name project_remote_url;;
      confirm_and_upload project_config project_remote_url.

End Commands.

(** The text of [.gitignore] after lines 145-148. *)
Definition with_rule (text : string) : string :=
  if str_contains "coderelay.json" text then text else text +:+ ignore_rule.

(** ** A concrete platform

    A small JSON codec in the output format of [ujson] (no spaces when
    [indent] is 0, [/] escaped), a base64 decoder, the words [click] takes
    for yes and no, and a [git] whose [clone] leaves a working tree. The
    commands are run on it below, at concrete worlds. *)

Module Demo.

Definition dq : ascii := ascii_of_nat 34.
Definition bs : ascii := ascii_of_nat 92.
Definition lf : ascii := ascii_of_nat 10.

Fixpoint escape (s : string) : string :=
  match s with
  | EmptyString => EmptyString
  | String c rest =>
      if Ascii.eqb c dq || Ascii.eqb c bs || Ascii.eqb c "/"%char
      then String bs (String c (escape rest))
      else if Ascii.eqb c lf then String bs (String "n"%char (escape rest))
      else String c (escape rest)
  end.

Definition quote (s : string) : string :=
  String dq (escape s +:+ String dq EmptyString).

Fixpoint spaces (n : nat) : string :=
  match n with
  | O => EmptyString
  | S n' => String " "%char (spaces n')
  end.

(** A line break and the margin of [depth] levels; nothing when [indent] is 0. *)
Definition margin (indent depth : nat) : string :=
  match indent with
  | O => EmptyString
  | _ => String lf (spaces (indent * depth))
  end.

Fixpoint dumps_at (indent depth : nat) (v : json) : string :=
  let colon := match indent with O => ":" | _ => ": " end in
  let inner := margin indent (S depth) in
  match v with
  | JNull => "null"
  | JBool true => "true"
  | JBool false => "false"
  | JInt n => pretty n
  | JStr s => quote s
  | JArr [] => "[]"
  | JArr items =>
      "[" +:+ inner
      +:+ String.concat ("," +:+ inner) (map (dumps_at indent (S depth)) items)
      +:+ margin indent depth +:+ "]"
  | JObj [] => "{}"
  | JObj members =>
      "{" +:+ inner
      +:+ String.concat ("," +:+ inner)
            (map (fun '(k, x) => quote k +:+ colon +:+ dumps_at indent (S depth) x)
                 members)
      +:+ margin indent depth +:+ "}"
  end.

Definition dumps (indent : nat) (v : json) : string := dumps_at indent 0 v.

Definition is_space (c : ascii) : bool :=
  Ascii.eqb c " "%char || Ascii.eqb c lf || Ascii.eqb c (ascii_of_nat 13)
  || Ascii.eqb c (ascii_of_nat 9).

Fixpoint skip_ws (s : string) : string :=
  match s with
  | String c rest => if is_space c then skip_ws rest else s
  | EmptyString => EmptyString
  end.

(** The text after an opening quote, up to the closing one. *)
Fixpoint parse_string (s : string) : option (string * string) :=
  match s with
  | EmptyString => None
  | String c rest =>
      if Ascii.eqb c dq then Some (EmptyString, rest)
      else if Ascii.eqb c bs then
        match rest with
        | String e rest' =>
            '(text, after) ← parse_string rest';
            Some (String (if Ascii.eqb e "n"%char then lf else e) text, after)
        | EmptyString => None
        end
      else
        '(text, after) ← parse_string rest;
        Some (String c text, after)
  end.

Definition digit (c : ascii) : option Z :=
  let n := N_of_ascii c in
  if (48 <=? n)%N && (n <=? 57)%N then Some (Z.of_N (n - 48)) else None.

Fixpoint parse_digits (acc : Z) (s : string) : Z * string :=
  match s with
  | String c rest =>
      match digit c with
      | Some d => parse_digits (10 * acc + d)%Z rest
      | None => (acc, s)
      end
  | EmptyString => (acc, EmptyString)
  end.

Fixpoint parse_value (fuel : nat) (s : string) : option (json * string) :=
  match fuel with
  | O => None
  | S fuel =>
      match skip_ws s with
      | EmptyString => None
      | String c rest =>
          if Ascii.eqb c dq then
            '(text, after) ← parse_string rest;
            Some (JStr text, after)
          else if Ascii.eqb c "["%char then
            match skip_ws rest with
            | String "]"%char after => Some (JArr [], after)
            | _ => '(items, after) ← parse_items fuel rest; Some (JArr items, after)
            end
          else if Ascii.eqb c "{"%char then
            match skip_ws rest with
            | String "}"%char after => Some (JObj [], after)
            | _ => '(members, after) ← parse_members fuel rest; Some (JObj members, after)
            end
          else if Ascii.eqb c "-"%char then
            let '(n, after) := parse_digits 0 rest in Some (JInt (- n), after)
          else if bool_decide (is_Some (digit c)) then
            let '(n, after) := parse_digits 0 (String c rest) in Some (JInt n, after)
          else if String.prefix "true" (String c rest) then
            Some (JBool true, String.substring 3 (String.length rest) rest)
          else if String.prefix "false" (String c rest) then
            Some (JBool false, String.substring 4 (String.length rest) rest)
          else if String.prefix "null" (String c rest) then
            Some (JNull, String.substring 3 (String.length rest) rest)
          else None
      end
  end
with parse_items (fuel : nat) (s : string) : option (list json * string) :=
  match fuel with
  | O => None
  | S fuel =>
      '(v, after) ← parse_value fuel s;
      match skip_ws after with
      | String ","%char more =>
          '(vs, after') ← parse_items fuel more; Some (v :: vs, after')
      | String "]"%char after' => Some ([v], after')
      | _ => None
      end
  end
with parse_members (fuel : nat) (s : string)
  : option (list (string * json) * string) :=
  match fuel with
  | O => None
  | S fuel =>
      match skip_ws s with
      | String c rest =>
          if Ascii.eqb c dq then
            '(key, after) ← parse_string rest;
            match skip_ws after with
            | String ":"%char more =>
                '(v, after') ← parse_value fuel more;
                match skip_ws after' with
                | String ","%char more' =>
                    '(kvs, after'') ← parse_members fuel more';
                    Some ((key, v) :: kvs, after'')
                | String "}"%char after'' => Some ([(key, v)], after'')
                | _ => None
                end
            | _ => None
            end
          else None
      | EmptyString => None
      end
  end.

Definition loads (s : string) : outcome json :=
  match parse_value (2 * String.length s + 2) s with
  | Some (v, rest) =>
      match skip_ws rest with
      | EmptyString => Ok v
      | _ => Raise ValueError
      end
  | None => Raise ValueError
  end.

(** The six bits of a base64 character. *)
Definition sextet (c : ascii) : option N :=
  let n := N_of_ascii c in
  if (65 <=? n)%N && (n <=? 90)%N then Some (n - 65)%N
  else if (97 <=? n)%N && (n <=? 122)%N then Some (n - 71)%N
  else if (48 <=? n)%N && (n <=? 57)%N then Some (n + 4)%N
  else if (n =? 43)%N then Some 62%N
  else if (n =? 47)%N then Some 63%N
  else None.

Fixpoint sextets (s : string) : list N :=
  match s with
  | EmptyString => []
  | String c rest =>
      match sextet c with
      | Some n => n :: sextets rest
      | None => sextets rest
      end
  end.

Definition byte (n : N) : ascii := ascii_of_N (n mod 256).

Fixpoint octets (l : list N) : string :=
  match l with
  | a :: b :: c :: d :: rest =>
      let n := (a * 262144 + b * 4096 + c * 64 + d)%N in
      String (byte (n / 65536)) (String (byte (n / 256)) (String (byte n) (octets rest)))
  | [a; b; c] =>
      let n := (a * 1024 + b * 16 + c / 4)%N in
      String (byte (n / 256)) (String (byte n) EmptyString)
  | [a; b] => String (byte (a * 4 + b / 16)) EmptyString
  | _ => EmptyString
  end.

Definition decodebytes (s : string) : outcome string := Ok (octets (sextets s)).

Definition yes_no (word : string) : option bool :=
  if bool_decide (word ∈ ["1"; "true"; "t"; "yes"; "y"; "on"]) then Some true
  else if bool_decide (word ∈ ["0"; "false"; "f"; "no"; "n"; "off"]) then Some false
  else None.

(** The catalog with two projects, as the content API wraps it. *)
Definition catalog_response : json :=
  JObj [("content", JStr
    ("W3sibmFtZSI6ImZvbyIsImRlc2MiOiJkIiwibGFuZ3VhZ2VzIjpbInB5dGhvbiJdLCJmcmFtZXdv"
     +:+ "cmtzIjpbXSwiZ2l0IjoiaHR0cHM6Ly9leGFtcGxlLmNvbS9mb28uZ2l0IiwidGFzayI6eyJkZXNj"
     +:+ "IjoiZml4IHRoZSB0eXBvIn19LHsibmFtZSI6ImJhcmUiLCJkZXNjIjoibm8gaWdub3JlIGZpbGUi"
     +:+ "LCJsYW5ndWFnZXMiOlsicnVzdCJdLCJmcmFtZXdvcmtzIjpbInRva2lvIl0sImdpdCI6Imh0dHBz"
     +:+ "Oi8vZXhhbXBsZS5jb20vYmFyZS5naXQiLCJ0YXNrIjp7ImRlc2MiOiJhZGQgYSB0ZXN0In19XQ=="))].

Definition foo : Project :=
  {| p_name := "foo"; p_desc := "d"; p_languages := ["python"]; p_frameworks := [];
     p_git := "https://example.com/foo.git"; p_task_desc := "fix the typo" |}.

Definition bare : Project :=
  {| p_name := "bare"; p_desc := "no ignore file"; p_languages := ["rust"];
     p_frameworks := ["tokio"]; p_git := "https://example.com/bare.git";
     p_task_desc := "add a test" |}.

(** A project with an excluded framework first and an unknown one second,
    and the preferences that exclude the first. *)
Definition web_app : Project :=
  {| p_name := "web"; p_desc := "a site"; p_languages := ["python"];
     p_frameworks := ["django"; "flask"]; p_git := "https://example.com/web.git";
     p_task_desc := "fix a view" |}.

Definition no_django : Preferences :=
  {| z_languages := ["python"]; z_frameworks := [];
     z_excluded_frameworks := ["django"] |}.

Definition python_only : Preferences :=
  {| z_languages := ["python"]; z_frameworks := []; z_excluded_frameworks := [] |}.

(** [git clone url dest]: the repository [foo.git] ships a [.gitignore], any
    other one only a README; every other [git] command leaves the files. *)
Definition git (argv : list string) (cwd : path) (fs : gmap path node)
  : gmap path node :=
  match argv with
  | ["git"; "clone"; url; dest] =>
      let tree := name_components dest in
      let fs := <[(tree ++ ["README.md"])%list := File "# readme"]> fs in
      if String.eqb url "https://example.com/foo.git"
      then <[(tree ++ [".gitignore"])%list := File ("node_modules" +:+ nl)]> fs
      else fs
  | _ => fs
  end.

Definition platform : Platform :=
  {| user_config_dir := ["home"; "dev"; ".config"];
     user_documents_dir := ["home"; "dev"; "Documents"];
     which_git := true;
     http_get_json := fun url =>
       if String.eqb url catalog_url then Ok catalog_response
       else Raise ConnectionError;
     b64decode := decodebytes;
     ujson_loads := loads;
     ujson_dumps := dumps;
     py_repr := dumps 0;
     click_bool := yes_no;
     run_process := git |}.

(** A home directory with nothing of the tool in it yet. *)
Definition fresh_fs : gmap path node :=
  <[["home"; "dev"; "Documents"] := Dir]>
    (<[["home"; "dev"] := Dir]> (<[["home"] := Dir]> ∅)).

(** The same with the workspace of [foo] in it. *)
Definition foo_workspace : path := ["home"; "dev"; "Documents"; "code-relay"; "foo"].

Definition workspace_fs : gmap path node :=
  <[(foo_workspace ++ ["coderelay.json"])%list := File (dumps 4 (project_json foo))]>
    (<[(foo_workspace ++ [".gitignore"])%list := File (with_rule ("node_modules" +:+ nl))]>
       (<[foo_workspace := Dir]>
          (<[["home"; "dev"; "Documents"; "code-relay"] := Dir]> fresh_fs))).

(** The fresh home directory with the preferences of a Python developer. *)
Definition python_prefs_fs : gmap path node :=
  <[["home"; "dev"; ".config"; "coderelay"; "coderelay.json"]
    := File (dumps 0 (prefs_json python_only))]>
    (<[["home"; "dev"; ".config"; "coderelay"] := Dir]>
       (<[["home"; "dev"; ".config"] := Dir]> fresh_fs)).

(** The fresh home directory with a regular file where the configuration
    directory of the tool should be. *)
Definition blocked_fs : gmap path node :=
  <[["home"; "dev"; ".config"; "coderelay"] := File "not a directory"]>
    (<[["home"; "dev"; ".config"] := Dir]> fresh_fs).

Definition world (fs : gmap path node) (typed : list string) : World :=
  {| w_fs := fs; w_stdin := typed; w_cwd := ["home"; "dev"]; w_trace := [] |}.

(** Variants of the platform: the network reply, whether [git] is found and
    what a subprocess does are the arguments. *)
Definition variant (reply : outcome json) (git_found : bool)
  (run : list string -> path -> gmap path node -> gmap path node) : Platform :=
  {| user_config_dir := ["home"; "dev"; ".config"];
     user_documents_dir := ["home"; "dev"; "Documents"];
     which_git := git_found;
     http_get_json := fun _ => reply;
     b64decode := decodebytes;
     ujson_loads := loads;
     ujson_dumps := dumps;
     py_repr := dumps 0;
     click_bool := yes_no;
     run_process := run |}.



(** No network. *)
Definition offline : Platform := variant (Raise ConnectionError) true git.

(** No [git] on the PATH. *)
Definition gitless : Platform := variant (Ok catalog_response) false git.

(** An entry with only a name between the two projects of the catalog. *)
Definition half : json := JObj [("name", JStr "half")].

Definition broken_response : json :=
  JObj [("content", JStr
    ("W3sibmFtZSI6ImZvbyIsImRlc2MiOiJkIiwibGFuZ3VhZ2VzIjpbInB5dGhvbiJdLCJmcmFtZXdv"
     +:+ "cmtzIjpbXSwiZ2l0IjoiaHR0cHM6Ly9leGFtcGxlLmNvbS9mb28uZ2l0IiwidGFzayI6eyJkZXNj"
     +:+ "IjoiZml4IHRoZSB0eXBvIn19LHsibmFtZSI6ImhhbGYifSx7Im5hbWUiOiJiYXJlIiwiZGVzYyI6"
     +:+ "Im5vIGlnbm9yZSBmaWxlIiwibGFuZ3VhZ2VzIjpbInJ1c3QiXSwiZnJhbWV3b3JrcyI6WyJ0b2tp"
     +:+ "byJdLCJnaXQiOiJodHRwczovL2V4YW1wbGUuY29tL2JhcmUuZ2l0IiwidGFzayI6eyJkZXNjIjoi"
     +:+ "YWRkIGEgdGVzdCJ9fV0="))].

Definition broken : Platform := variant (Ok broken_response) true git.

(** The home directory with a regular file where the workspace of [foo]
    should be. *)
Definition file_fs : gmap path node :=
  <[foo_workspace := File "notes"]>
    (<[["home"; "dev"; "Documents"; "code-relay"] := Dir]> fresh_fs).

(** The workspace of [foo] with a metadata file that has no task. *)
Definition taskless : json := JObj [("git", JStr "https://example.com/foo.git")].

Definition taskless_fs : gmap path node :=
  <[(foo_workspace ++ ["coderelay.json"])%list := File (dumps 4 taskless)]> workspace_fs.

(** The workspace of [foo] without its metadata file. *)
Definition bare_workspace_fs : gmap path node :=
  <[foo_workspace := Dir]>
    (<[["home"; "dev"; "Documents"; "code-relay"] := Dir]> fresh_fs).

(** A preference file that is an empty JSON object. *)
Definition empty_prefs_fs : gmap path node :=
  <[["home"; "dev"; ".config"; "coderelay"; "coderelay.json"] := File "{}"]>
    (<[["home"; "dev"; ".config"; "coderelay"] := Dir]>
       (<[["home"; "dev"; ".config"] := Dir]> fresh_fs)).

End Demo.

(** ** Definitions used to state the properties *)

(** The verdict as a decision list over the typed view: what the two loops
    of the matcher compute (lemma [classify_precedence]). *)
Definition known_in (l : list string) (x : string) : bool := bool_decide (x ∈ l).

Definition precedence (P : Project) (Z : Preferences) : verdict :=
  if negb (forallb (known_in (z_languages Z)) (p_languages P)) then new_language
  else if existsb (known_in (z_excluded_frameworks Z)) (p_frameworks P)
       then excluded_framework
  else if negb (forallb (known_in (z_frameworks Z)) (p_frameworks P))
       then new_framework
  else good_match.


(** [n] invocations of a command in a row. *)
Fixpoint times {A} (n : nat) (c : M A) : M unit :=
  match n with
  | O => pass
  | S n' => c;; times n' c
  end.

(** [download_begins pf name w fs0]: in the world [w], with the catalog read
    and the project found, [start_project] gets past the check of lines
    125-130 and goes on to the download with the files [fs0]: the workspace
    was not there, or the user had it deleted. *)
Inductive download_begins (pf : Platform) (project_name : string) (w : World)
  : gmap path node -> Prop :=
| begins_fresh :
    node_at (w_fs w) (project_path pf project_name) = None ->
    download_begins pf project_name w (w_fs w)
| begins_after_delete (rest : list string) (fs0 : gmap path node) :
    is_Some (node_at (w_fs w) (project_path pf project_name)) ->
    read_answer (click_bool pf) (w_stdin w) = Some (true, rest) ->
    fs_rmtree (project_path pf project_name) (w_fs w) = Ok fs0 ->
    download_begins pf project_name w fs0.


(** A project name all of whose pieces between [/] are names of directory
    entries: none is empty, [.] or [..]. *)
Definition ordinary_name (name : string) : Prop :=
  Forall (fun piece => piece ≠ "" /\ piece ≠ "." /\ piece ≠ "..")
         (split_on slash name).

(** A command only adds events to the trace; [starts_with evs c] when the
    events it adds begin with [evs], however it ends. *)
Definition appends {A} (c : M A) : Prop :=
  forall w, exists evs, w_trace (c w).2 = w_trace w ++ evs.

Definition starts_with {A} (evs : list event) (c : M A) : Prop :=
  forall w, exists rest, w_trace (c w).2 = w_trace w ++ evs ++ rest.

(** A command leaves the file system as it is, however it ends. *)
Definition keeps_fs {A} (c : M A) : Prop :=
  forall w, w_fs (c w).2 = w_fs w.

(** The line [list_repos] prints for a project of the typed view. *)
Definition verdict_line (Z : Preferences) (P : Project) : event :=
  EvSecho (p_name P +:+ ", " +:+ p_desc P +:+ " " +:+ (precedence P Z).1)
          (Fg (precedence P Z).2).

(** A command that only talks: however it ends, the files, the unread
    input and the working directory are as before and no subprocess was
    called. *)
Definition read_only {A} (c : M A) : Prop :=
  forall w,
    w_fs (c w).2 = w_fs w
    /\ w_stdin (c w).2 = w_stdin w
    /\ w_cwd (c w).2 = w_cwd w
    /\ calls (w_trace (c w).2) = calls (w_trace w).

(** How many times the character [c] occurs in [s]. *)
Fixpoint count_char (c : ascii) (s : string) : nat :=
  match s with
  | EmptyString => 0
  | String a rest => (if Ascii.eqb a c then 1 else 0) + count_char c rest
  end.

(** * Properties *)

(** ** The matcher *)

Section Matcher.

Implicit Types (P : Project) (Z : Preferences) (m : verdict).

Lemma existsb_tags (x : string) (l : list string) :
  existsb (py_eq (JStr x)) (map JStr l) = known_in l x.
Proof.
  unfold known_in. induction l as [|a l IH]; cbn [map existsb].
  - symmetry. apply bool_decide_eq_false_2, not_elem_of_nil.
  - rewrite IH. change (py_eq (JStr x) (JStr a)) with (String.eqb x a).
    destruct (String.eqb_spec x a) as [->|Hne]; cbn [orb].
    + symmetry. apply bool_decide_eq_true_2. left.
    + apply bool_decide_ext. rewrite elem_of_cons. tauto.
Qed.

Lemma contains_tags (x : string) (l : list string) :
  py_contains (JStr x) (tags l) = Ok (known_in l x).
Proof. unfold tags, py_contains. by rewrite existsb_tags. Qed.

Lemma language_loop_tags Z (pl : list string) m :
  language_loop (prefs_json Z) (map JStr pl) m
  = Ok (if forallb (known_in (z_languages Z)) pl then m else new_language).
Proof.
  induction pl as [|l pl IH]; [done|].
  cbn [map language_loop]. change (getitem (prefs_json Z) "languages")
    with (Ok (tags (z_languages Z))).
  cbn [mbind outcome_bind]. rewrite contains_tags. cbn [mbind outcome_bind forallb].
  destruct (known_in (z_languages Z) l); simpl; [apply IH | done].
Qed.

(** One pass of the framework loop over string tags, from a verdict [m]. *)
Lemma framework_loop_tags Z (pf : list string) m :
  framework_loop (prefs_json Z) (map JStr pf) m
  = Ok (if not_new_language m then
          if existsb (known_in (z_excluded_frameworks Z)) pf then excluded_framework
          else if forallb (known_in (z_frameworks Z)) pf then m
          else new_framework
        else m).
Proof.
  revert m. induction pf as [|f pf IH]; intros m.
  - simpl. by destruct (not_new_language m).
  - cbn [map framework_loop].
    change (getitem (prefs_json Z) "excluded_frameworks")
      with (Ok (tags (z_excluded_frameworks Z))).
    change (getitem (prefs_json Z) "frameworks")
      with (Ok (tags (z_frameworks Z))).
    cbn [mbind outcome_bind]. rewrite !contains_tags.
    cbn [mbind outcome_bind existsb forallb].
    destruct (known_in (z_excluded_frameworks Z) f),
             (known_in (z_frameworks Z) f),
             (not_new_language m) eqn:Hm; simpl; rewrite ?IH, ?Hm; try done.
    change (not_new_language new_framework) with true.
    by destruct (forallb _ pf).
Qed.

(** The two loops compute the decision list. *)
Lemma classify_precedence P Z :
  classify (project_json P) (prefs_json Z) = Ok (precedence P Z).
Proof.
  unfold classify, precedence.
  change (getitem (project_json P) "languages") with (Ok (tags (p_languages P))).
  change (getitem (project_json P) "frameworks") with (Ok (tags (p_frameworks P))).
  unfold tags. cbn [mbind outcome_bind py_iter].
  rewrite language_loop_tags. cbn [mbind outcome_bind].
  rewrite framework_loop_tags.
  destruct (forallb _ (p_languages P)); [|done].
  change (not_new_language good_match) with true. cbn [negb].
  destruct (existsb _ _); [done|]. by destruct (forallb _ _).
Qed.

Lemma forallb_known (l pl : list string) :
  forallb (known_in l) pl = true <-> (forall x, x ∈ pl -> x ∈ l).
Proof.
  rewrite forallb_forall. unfold known_in.
  split; intros H x Hx.
  - eapply bool_decide_eq_true_1. apply H. by apply list_elem_of_In.
  - apply bool_decide_eq_true_2. apply H. by apply list_elem_of_In.
Qed.

Lemma existsb_known (l pf : list string) :
  existsb (known_in l) pf = true <-> (exists x, x ∈ pf /\ x ∈ l).
Proof.
  rewrite existsb_exists. unfold known_in.
  split; intros (x & Hx & Hl); exists x.
  - split; [by apply list_elem_of_In | by eapply bool_decide_eq_true_1].
  - split; [by apply list_elem_of_In | by apply bool_decide_eq_true_2].
Qed.

(** C1, as the code has it: with no new language and the frameworks
    [[f1; f2]], [f1] excluded and [f2] neither accepted nor excluded, the
    verdict is "excluded framework" (red): the loop leaves at [f1] and never
    looks at [f2]. *)
Theorem C1_excluded_then_new P Z (f1 f2 : string) :
  (forall l, l ∈ p_languages P -> l ∈ z_languages Z) ->
  p_frameworks P = [f1; f2] ->
  f1 ∈ z_excluded_frameworks Z ->
  f2 ∉ z_frameworks Z ->
  f2 ∉ z_excluded_frameworks Z ->
  classify (project_json P) (prefs_json Z) = Ok excluded_framework.
Proof.
  intros Hl Hf H1 _ _. rewrite classify_precedence. unfold precedence.
  apply forallb_known in Hl. rewrite Hl, Hf. simpl.
  unfold known_in at 1. by rewrite bool_decide_eq_true_2.
Qed.

(** C2: a language of the project that the preferences do not list makes the
    verdict "new language", whatever the three framework lists hold. *)
Theorem C2_new_language P Z (l : string) :
  l ∈ p_languages P ->
  l ∉ z_languages Z ->
  classify (project_json P) (prefs_json Z) = Ok new_language.
Proof.
  intros Hin Hout. rewrite classify_precedence. unfold precedence.
  destruct (forallb _ (p_languages P)) eqn:Hall; [|done].
  exfalso. apply Hout. by apply (proj1 (forallb_known _ _) Hall).
Qed.

(** C3: all languages accepted, no framework excluded and every framework
    accepted give "good match". *)
Theorem C3_good_match P Z :
  (forall l, l ∈ p_languages P -> l ∈ z_languages Z) ->
  (forall f, f ∈ p_frameworks P -> f ∉ z_excluded_frameworks Z) ->
  (forall f, f ∈ p_frameworks P -> f ∈ z_frameworks Z) ->
  classify (project_json P) (prefs_json Z) = Ok good_match.
Proof.
  intros Hl Hex Hf. rewrite classify_precedence. unfold precedence.
  apply forallb_known in Hl, Hf. rewrite Hl, Hf. simpl.
  destruct (existsb _ (p_frameworks P)) eqn:Hsome; [|done].
  apply existsb_known in Hsome as (f & Hin & Hbad). by destruct (Hex f Hin).
Qed.

(** With every language accepted, one excluded framework anywhere in the
    list decides the verdict: an earlier "new framework" is overwritten, a
    later one is never reached. *)
Lemma excluded_framework_wins P Z (f : string) :
  (forall l, l ∈ p_languages P -> l ∈ z_languages Z) ->
  f ∈ p_frameworks P ->
  f ∈ z_excluded_frameworks Z ->
  classify (project_json P) (prefs_json Z) = Ok excluded_framework.
Proof.
  intros Hl Hin Hex. rewrite classify_precedence. unfold precedence.
  apply forallb_known in Hl. rewrite Hl. cbn [negb].
  by rewrite (proj2 (existsb_known _ _)) by eauto.
Qed.

End Matcher.

(** ** Running a command *)

Section Running.

Context {A B : Type}.
Implicit Types (c : M A) (f : A -> M B) (w : World).

Lemma bind_run c f w :
  (c ≫= f) w = match c w with
               | (Ok a, w') => f a w'
               | (Raise e, w') => (Raise e, w')
               end.
Proof. reflexivity. Qed.

Lemma bind_ok c f w a w' : c w = (Ok a, w') -> (c ≫= f) w = f a w'.
Proof. intros H. by rewrite bind_run, H. Qed.

End Running.

Lemma fs_update_ok f w fs' :
  f (w_fs w) = Ok fs' -> fs_update f w = (Ok tt, with_fs fs' w).
Proof. intros H. unfold fs_update. by rewrite H. Qed.

(** ** The file system operations *)

Lemma node_at_cons (fs : gmap path node) (c : string) (p : path) :
  node_at fs (c :: p) = fs !! (c :: p).
Proof. reflexivity. Qed.

Lemma node_at_snoc (fs : gmap path node) (p : path) (c : string) :
  node_at fs (p ++ [c]) = fs !! (p ++ [c]).
Proof. by destruct p. Qed.

Lemma dirname_snoc (p : path) (c : string) : dirname (p ++ [c]) = p.
Proof. apply removelast_last. Qed.

(** [makedirs_from] succeeds when no component on the way is a regular file;
    it leaves directories on the way and changes nothing else. *)
Lemma makedirs_from_spec (rest : list string) :
  forall (base : path) (fs : gmap path node),
    (forall k text, k ≠ [] -> k `prefix_of` rest ->
                    fs !! (base ++ k) ≠ Some (File text)) ->
    exists fs',
      makedirs_from base rest fs = Ok fs'
      /\ (forall k, k ≠ [] -> k `prefix_of` rest -> fs' !! (base ++ k) = Some Dir)
      /\ (forall q, (forall k, k ≠ [] -> k `prefix_of` rest -> q ≠ base ++ k) ->
                    fs' !! q = fs !! q).
Proof.
  induction rest as [|c rest IH]; intros base fs Hfree.
  - exists fs. split; [done|]. split; [|done].
    intros k Hk Hpre. apply prefix_nil_inv in Hpre. done.
  - assert (Hstep : forall k, k `prefix_of` rest ->
                              (base ++ [c]) ++ k = base ++ c :: k
                              /\ (c :: k) `prefix_of` (c :: rest)).
    { intros k Hk. split; [by rewrite <- app_assoc | by apply prefix_cons]. }
    assert (Hhere : [c] `prefix_of` c :: rest) by apply prefix_cons, prefix_nil.
    cbn [makedirs_from].
    destruct (fs !! (base ++ [c])) as [[|text]|] eqn:Hp.
    + destruct (IH (base ++ [c]) fs) as (fs' & Hrun & Hdirs & Hframe).
      { intros k text Hk Hpre. destruct (Hstep k Hpre) as [-> Hpre'].
        by apply Hfree. }
      exists fs'. split; [done|]. split.
      * intros k Hk Hpre. destruct k as [|c' k]; [done|].
        apply prefix_cons_inv_1 in Hpre as Hc. subst c'.
        apply prefix_cons_inv_2 in Hpre.
        destruct k as [|c' k].
        -- rewrite Hframe; [done|]. intros k Hk' _ Heq.
           apply (f_equal length) in Heq. rewrite !length_app in Heq.
           destruct k; simpl in *; [done|lia].
        -- destruct (Hstep _ Hpre) as [<- _]. by apply Hdirs.
      * intros q Hq. apply Hframe. intros k Hk Hpre.
        destruct (Hstep k Hpre) as [-> Hpre']. by apply Hq.
    + by destruct (Hfree [c] text).
    + destruct (IH (base ++ [c]) (<[base ++ [c] := Dir]> fs))
        as (fs' & Hrun & Hdirs & Hframe).
      { intros k text Hk Hpre. rewrite lookup_insert_ne.
        - destruct (Hstep k Hpre) as [-> Hpre']. by apply Hfree.
        - intros Heq. apply (f_equal length) in Heq. rewrite !length_app in Heq.
          destruct k; simpl in *; [done|lia]. }
      exists fs'. split; [done|]. split.
      * intros k Hk Hpre. destruct k as [|c' k]; [done|].
        apply prefix_cons_inv_1 in Hpre as Hc. subst c'.
        apply prefix_cons_inv_2 in Hpre.
        destruct k as [|c' k].
        -- rewrite Hframe; [by rewrite lookup_insert_eq|]. intros k Hk' _ Heq.
           apply (f_equal length) in Heq. rewrite !length_app in Heq.
           destruct k; simpl in *; [done|lia].
        -- destruct (Hstep _ Hpre) as [<- _]. by apply Hdirs.
      * intros q Hq. rewrite Hframe.
        -- apply lookup_insert_ne. intros <-. by apply (Hq [c]).
        -- intros k Hk Hpre. destruct (Hstep k Hpre) as [-> Hpre']. by apply Hq.
Qed.

(** ** The preference store *)

Section PreferenceStore.

Variable pf : Platform.

Lemma config_path_cons :
  exists c p, config_path pf = c :: p.
Proof.
  unfold config_path. destruct (user_config_dir pf); simpl; eauto.
Qed.

Lemma config_dir :
  dirname (config_path pf) = user_config_dir pf ++ ["coderelay"].
Proof.
  unfold config_path.
  change ["coderelay"; "coderelay.json"] with (["coderelay"] ++ ["coderelay.json"]).
  rewrite app_assoc. apply dirname_snoc.
Qed.

Lemma node_at_config (fs : gmap path node) :
  node_at fs (config_path pf) = fs !! config_path pf.
Proof. by destruct config_path_cons as (c & p & ->). Qed.

Lemma load_json_file (p : path) (w : World) (text : string) :
  node_at (w_fs w) p = Some (File text) ->
  load_json pf p w = (ujson_loads pf text, w).
Proof.
  intros Hfile. unfold load_json, read_file, fs_read.
  by rewrite bind_run, Hfile.
Qed.

(** With the file in place the store is read and the world stays as it is. *)
Lemma load_existing (w : World) (text : string) :
  w_fs w !! config_path pf = Some (File text) ->
  load_or_init_preferences pf w = (ujson_loads pf text, w).
Proof.
  intros Hfile. unfold load_or_init_preferences.
  rewrite (bind_ok _ _ w true w).
  2:{ unfold path_exists. rewrite node_at_config, Hfile.
      by rewrite bool_decide_eq_true_2. }
  cbn [negb]. rewrite (bind_ok _ _ w tt w) by done.
  apply load_json_file. by rewrite node_at_config.
Qed.

Lemma times_load_existing (n : nat) (w : World) (text : string) (config : json) :
  w_fs w !! config_path pf = Some (File text) ->
  ujson_loads pf text = Ok config ->
  times n (load_or_init_preferences pf) w = (Ok tt, w).
Proof.
  intros Hfile Hparse. induction n as [|n IH]; [done|].
  cbn [times]. rewrite (bind_ok _ _ w config w); [done|].
  by rewrite (load_existing w text), Hparse.
Qed.

(** C4: with no preference file, and nothing but directories (or nothing) on
    the way to it, the store creates the directories, writes the record with
    the three empty lists and reads it back; nothing else in the file system
    changes. From then on, any number of invocations read the file and leave
    the world as it is; the same holds for every existing preference file. *)
Theorem C4_preference_store (w : World) :
  ujson_loads pf (ujson_dumps pf 0 default_config) = Ok default_config ->
  w_fs w !! config_path pf = None ->
  (forall q text, q ≠ [] -> q `prefix_of` dirname (config_path pf) ->
                  w_fs w !! q ≠ Some (File text)) ->
  exists fs',
    load_or_init_preferences pf w
    = (Ok (JObj [("languages", JArr []); ("frameworks", JArr []);
                 ("excluded_frameworks", JArr [])]),
       with_fs fs' w)
    /\ fs' !! config_path pf
       = Some (File (ujson_dumps pf 0
                       (JObj [("languages", JArr []); ("frameworks", JArr []);
                              ("excluded_frameworks", JArr [])])))
    /\ (forall q, q ≠ [] -> q `prefix_of` dirname (config_path pf) ->
                  fs' !! q = Some Dir)
    /\ (forall q n, w_fs w !! q = Some n -> fs' !! q = Some n)
    /\ (forall q, ¬ q `prefix_of` config_path pf -> fs' !! q = w_fs w !! q)
    /\ (forall n, times n (load_or_init_preferences pf) (with_fs fs' w)
                  = (Ok tt, with_fs fs' w))
    /\ (forall w2 text, w_fs w2 !! config_path pf = Some (File text) ->
                        load_or_init_preferences pf w2 = (ujson_loads pf text, w2)).
Proof.
  intros Hcodec Habsent Hfree.
  destruct (makedirs_from_spec (dirname (config_path pf)) [] (w_fs w))
    as (fs1 & Hmk & Hdirs & Hframe).
  { intros k text Hk Hpre. by apply Hfree. }
  cbn [app] in Hdirs, Hframe.
  assert (Hlonger : forall k, k `prefix_of` dirname (config_path pf) ->
                              config_path pf ≠ k).
  { intros k Hpre Heq. apply prefix_length in Hpre. rewrite <- Heq in Hpre.
    rewrite config_dir in Hpre. unfold config_path in Hpre.
    rewrite !length_app in Hpre. simpl in Hpre. lia. }
  assert (Hparent : dirname (config_path pf) `prefix_of` config_path pf).
  { rewrite config_dir. unfold config_path.
    exists ["coderelay.json"]. by rewrite <- app_assoc. }
  assert (Hdir_ne : dirname (config_path pf) ≠ []).
  { rewrite config_dir. by destruct (user_config_dir pf). }
  set (text := ujson_dumps pf 0 default_config) in *.
  set (fs2 := <[config_path pf := File text]> fs1).
  assert (Hnone1 : fs1 !! config_path pf = None).
  { rewrite Hframe; [done|]. intros k _ Hpre. by apply Hlonger. }
  exists fs2.
  assert (Hfile2 : fs2 !! config_path pf = Some (File text))
    by apply lookup_insert_eq.
  split; [|split; [done|split; [|split; [|split; [|split]]]]].
  - unfold load_or_init_preferences.
    rewrite (bind_ok _ _ w false w).
    2:{ unfold path_exists. rewrite node_at_config, Habsent.
        rewrite bool_decide_eq_false_2; [done|]. by intros [? ?]. }
    cbn [negb].
    rewrite (bind_ok _ _ w tt (with_fs fs2 w)).
    + fold default_config. rewrite <- Hcodec. fold text.
      apply load_json_file. by rewrite node_at_config.
    + rewrite (bind_ok _ _ w tt (with_fs fs1 w)).
      2:{ by apply fs_update_ok. }
      unfold write_file. rewrite (fs_update_ok _ _ fs2); [done|].
      cbn [w_fs with_fs]. unfold fs_write, parent_error.
      rewrite node_at_config, Hnone1.
      destruct (dirname (config_path pf)) as [|c p] eqn:Hd; [done|].
      rewrite node_at_cons, Hdirs; done.
  - intros q Hq Hpre. unfold fs2. rewrite lookup_insert_ne.
    + by apply Hdirs.
    + intros Heq. by apply (Hlonger q).
  - intros q n Hq. unfold fs2. rewrite lookup_insert_ne by congruence.
    destruct (decide (q ≠ [] /\ q `prefix_of` dirname (config_path pf)))
      as [[Hne Hpre]|Hout].
    + rewrite Hdirs by done. destruct n as [|t]; [done|].
      by destruct (Hfree q t).
    + rewrite Hframe; [done|]. intros k Hk Hpre ->. by apply Hout.
  - intros q Hq. unfold fs2. rewrite lookup_insert_ne.
    + apply Hframe. intros k _ Hpre ->. apply Hq. by etrans.
    + intros <-. by apply Hq.
  - intros n. apply (times_load_existing n _ text default_config); done.
  - intros w2 t. apply load_existing.
Qed.

End PreferenceStore.

(** ** The trace only grows *)

Create HintDb appends.

Section Traces.

Context {A B : Type}.

Lemma appends_bind (c : M A) (f : A -> M B) :
  appends c -> (forall a, appends (f a)) -> appends (c ≫= f).
Proof.
  intros Hc Hf w. rewrite bind_run. destruct (Hc w) as [evs Hevs].
  destruct (c w) as [[a|e] w1]; simpl in Hevs.
  - destruct (Hf a w1) as [evs' Hevs']. exists (evs ++ evs').
    by rewrite Hevs', Hevs, app_assoc.
  - by exists evs.
Qed.

Lemma starts_bind (evs : list event) (c : M A) (f : A -> M B) :
  starts_with evs c -> (forall a, appends (f a)) -> starts_with evs (c ≫= f).
Proof.
  intros Hc Hf w. rewrite bind_run. destruct (Hc w) as [rest Hrest].
  destruct (c w) as [[a|e] w1]; simpl in Hrest.
  - destruct (Hf a w1) as [evs' Hevs']. exists (rest ++ evs').
    by rewrite Hevs', Hrest, <- !app_assoc.
  - by exists rest.
Qed.

Lemma appends_same (c : M A) :
  (forall w, w_trace (c w).2 = w_trace w) -> appends c.
Proof. intros H w. exists []. by rewrite H, app_nil_r. Qed.

Lemma appends_lift (o : outcome A) : appends (lift o).
Proof. by apply appends_same. Qed.

Lemma appends_ret (a : A) : appends (mret a : M A).
Proof. by apply appends_same. Qed.

Lemma appends_click_prompt (conv : string -> option A) (text : string) :
  appends (click_prompt conv text).
Proof.
  intros w. exists (prompts_shown conv text (w_stdin w)).
  unfold click_prompt. by destruct (read_answer conv (w_stdin w)) as [[a rest]|].
Qed.

End Traces.

Lemma appends_emit (e : event) : appends (emit e).
Proof. intros w. by exists [e]. Qed.

Lemma appends_pass : appends pass.
Proof. by apply appends_same. Qed.

Lemma appends_fs_update f : appends (fs_update f).
Proof. apply appends_same. intros w. unfold fs_update. by destruct (f (w_fs w)). Qed.

Lemma appends_path_exists p : appends (path_exists p).
Proof. by apply appends_same. Qed.

Lemma appends_read_file p : appends (read_file p).
Proof. by apply appends_same. Qed.

Lemma appends_chdir p : appends (chdir p).
Proof.
  apply appends_same. intros w. unfold chdir.
  by destruct (node_at (w_fs w) p) as [[|text]|].
Qed.

Lemma appends_subprocess_call pf argv : appends (subprocess_call pf argv).
Proof. intros w. by exists [EvCall argv (w_cwd w)]. Qed.

#[local] Hint Resolve appends_lift appends_ret appends_click_prompt appends_emit
  appends_pass appends_fs_update appends_path_exists appends_read_file
  appends_chdir appends_subprocess_call : appends.

(** Walks through the binds and branches of a command. *)
Ltac appends_step :=
  match goal with
  | |- appends (_ ≫= _) => apply appends_bind; [|intros ?]
  | |- appends (if ?b then _ else _) => destruct b
  | |- appends (match ?o with Some _ => _ | None => _ end) => destruct o
  | |- appends _ => solve [auto with appends]
  end.

Lemma appends_for_each {A} (body : A -> M unit) (items : list A) :
  (forall x, appends (body x)) -> appends (for_each body items).
Proof.
  intros Hbody. induction items as [|x items IH]; cbn [for_each].
  - apply appends_ret.
  - by apply appends_bind.
Qed.

(** ** The catalog fetch and [list_repos] *)

Section Listing.

Variable pf : Platform.

Local Abbreviation fetch_begins :=
  [EvSpinner "⏳ Fetching repos..."; EvHttpGet catalog_url].

(** The fetch shows the spinner and reads the catalog, then ends one way or
    the other; files, input and working directory are as before. *)
Lemma fetch_repos_run (w : World) :
  exists r evs,
    fetch_repos pf w = (r, with_trace (w_trace w ++ fetch_begins ++ evs) w)
    /\ calls evs = []
    /\ (forall catalog, r = Ok catalog -> evs = [EvSpinnerFinish]).
Proof.
  unfold fetch_repos, spinner_start, spinner_finish.
  rewrite (bind_ok _ _ w tt (with_trace (w_trace w ++ [EvSpinner "⏳ Fetching repos..."]) w))
    by done.
  rewrite (bind_ok _ _ _ tt (with_trace (w_trace w ++ fetch_begins) w)).
  2:{ unfold emit. cbn [w_trace with_trace]. by rewrite <- app_assoc. }
  set (w1 := with_trace (w_trace w ++ fetch_begins) w).
  assert (Hstop : forall e, exists r evs,
             (Raise e : outcome json, w1)
             = (r, with_trace (w_trace w ++ fetch_begins ++ evs) w)
             /\ calls evs = []
             /\ (forall catalog, r = Ok catalog -> evs = [EvSpinnerFinish])).
  { intros e. exists (Raise e), []. by rewrite app_nil_r. }
  unfold lift. rewrite bind_run.
  destruct (http_get_json pf catalog_url) as [response|e]; [|apply Hstop].
  rewrite bind_run. destruct (getitem response "content") as [content|e]; [|apply Hstop].
  rewrite bind_run. destruct (str_encode content) as [encoded|e]; [|apply Hstop].
  rewrite bind_run. destruct (b64decode pf encoded) as [decoded|e]; [|apply Hstop].
  rewrite bind_run. cbn [emit w_trace with_trace w1].
  exists (ujson_loads pf decoded), [EvSpinnerFinish].
  by rewrite <- app_assoc.
Qed.

Lemma fetch_repos_ok (w w1 : World) (catalog : json) :
  fetch_repos pf w = (Ok catalog, w1) ->
  w1 = with_trace (w_trace w ++ fetch_begins ++ [EvSpinnerFinish]) w.
Proof.
  intros Hrun. destruct (fetch_repos_run w) as (r & evs & Heq & _ & Hok).
  rewrite Heq in Hrun. injection Hrun as -> <-. by rewrite (Hok catalog).
Qed.

Lemma fetch_repos_starts : starts_with fetch_begins (fetch_repos pf).
Proof.
  intros w. destruct (fetch_repos_run w) as (r & evs & -> & _). by exists evs.
Qed.

Lemma appends_load_json (p : path) : appends (load_json pf p).
Proof. unfold load_json. repeat appends_step. Qed.

Lemma appends_show_project (config project : json) :
  appends (show_project pf config project).
Proof. unfold show_project, secho. repeat appends_step. Qed.

(** C10: the first thing [list_repos] does, in every world, is to start the
    spinner and read the catalog. When that read returns a catalog and there
    is no preference file, the only other thing that happens is the line
    that asks for [coderelay user-prefs]: no verdict is printed, and files,
    input and working directory are as before, so there still is no
    preference file. *)
Theorem C10_list_repos_without_preferences :
  starts_with [EvSpinner "⏳ Fetching repos..."; EvHttpGet catalog_url] (list_repos pf)
  /\ forall (w w1 : World) (catalog : json),
       fetch_repos pf w = (Ok catalog, w1) ->
       node_at (w_fs w) (config_path pf) = None ->
       list_repos pf w
       = (Ok tt,
          with_trace
            (w_trace w ++
             [EvSpinner "⏳ Fetching repos..."; EvHttpGet catalog_url; EvSpinnerFinish;
              EvEcho "Please run `coderelay user-prefs` to configure your preferences."])
            w)
       /\ node_at (w_fs (list_repos pf w).2) (config_path pf) = None.
Proof.
  split.
  - unfold list_repos. apply starts_bind; [apply fetch_repos_starts|].
    intros catalog. unfold echo. repeat appends_step.
    + apply appends_load_json.
    + apply appends_for_each, appends_show_project.
  - intros w w1 catalog Hfetch Habsent.
    assert (Hrun : list_repos pf w
                   = (Ok tt,
                      with_trace
                        (w_trace w ++
                         [EvSpinner "⏳ Fetching repos..."; EvHttpGet catalog_url;
                          EvSpinnerFinish;
                          EvEcho "Please run `coderelay user-prefs` to configure your preferences."])
                        w)).
    { unfold list_repos. rewrite (bind_ok _ _ _ _ _ Hfetch).
      apply fetch_repos_ok in Hfetch as ->.
      rewrite bind_run. unfold path_exists. cbn [w_fs with_trace].
      rewrite Habsent, bool_decide_eq_false_2 by (by intros [? ?]).
      cbn [negb]. unfold echo, emit. cbn [w_trace with_trace].
      by rewrite <- app_assoc. }
    by rewrite Hrun.
Qed.

End Listing.

(** ** The workspace: [start_project] *)

Section Workspace.

Variable pf : Platform.

Local Abbreviation fetched :=
  [EvSpinner "⏳ Fetching repos..."; EvHttpGet catalog_url; EvSpinnerFinish].

Local Abbreviation delete_prompt name :=
  ("Project at " +:+ show_path (project_path pf name)
   +:+ " already exists. Delete it (y/n)").

Lemma calls_app (a b : list event) : calls (a ++ b) = calls a ++ calls b.
Proof. apply omap_app. Qed.

Lemma calls_prompts {A} (conv : string -> option A) (text : string)
  (lines : list string) :
  calls (prompts_shown conv text lines) = [].
Proof.
  induction lines as [|line lines IH]; [done|].
  cbn [prompts_shown].
  by destruct (if String.eqb line "" then None else conv line).
Qed.

Lemma click_prompt_answer {A} (conv : string -> option A) (text : string)
  (w : World) (a : A) (rest : list string) :
  read_answer conv (w_stdin w) = Some (a, rest) ->
  click_prompt conv text w
  = (Ok a, with_stdin rest
             (with_trace (w_trace w ++ prompts_shown conv text (w_stdin w)) w)).
Proof. intros H. unfold click_prompt. by rewrite H. Qed.

(** The three checks of lines 113-124 passed. *)
Lemma start_project_found (name : string) (w w1 : World)
  (catalog project : json) (projects : list json) :
  fetch_repos pf w = (Ok catalog, w1) ->
  py_iter catalog = Ok projects ->
  find_project name projects = Ok (Some project) ->
  which_git pf = true ->
  start_project pf name w
  = (present ← path_exists (project_path pf name);
     if (present : bool) then
       delete ← prompt_bool pf (delete_prompt name);
       if (delete : bool) then
         rmtree (project_path pf name);;
         download_project pf name project
       else echo "Aborting."
     else download_project pf name project)
      (with_trace (w_trace w ++ fetched) w).
Proof.
  intros Hfetch Hiter Hfind Hgit. unfold start_project.
  rewrite (bind_ok _ _ _ _ _ Hfetch). apply fetch_repos_ok in Hfetch as ->.
  unfold lift. rewrite bind_run, Hiter, bind_run, Hfind, Hgit. done.
Qed.

(** C5: the workspace exists and the user answers no to the question
    whether to delete it: the command ends without an error after the line
    "Aborting."; no subprocess was called, so nothing was cloned, and the
    file system, with the workspace in it, is the one the command found. *)
Theorem C5_decline_keeps_workspace (name : string) (w w1 : World)
  (catalog project : json) (remaining : list string) :
  fetch_repos pf w = (Ok catalog, w1) ->
  (exists projects, py_iter catalog = Ok projects
                    /\ find_project name projects = Ok (Some project)) ->
  which_git pf = true ->
  is_Some (node_at (w_fs w) (project_path pf name)) ->
  read_answer (click_bool pf) (w_stdin w) = Some (false, remaining) ->
  exists w',
    start_project pf name w = (Ok tt, w')
    /\ w_fs w' = w_fs w
    /\ calls (w_trace w') = calls (w_trace w)
    /\ w_cwd w' = w_cwd w
    /\ w_trace w'
       = w_trace w ++ fetched
         ++ prompts_shown (click_bool pf) (delete_prompt name) (w_stdin w)
         ++ [EvEcho "Aborting."].
Proof.
  intros Hfetch (ps & Hiter & Hfind) Hgit Hthere Hno.
  rewrite (start_project_found name w w1 catalog project ps) by done.
  set (w2 := with_trace (w_trace w ++ fetched) w).
  rewrite (bind_ok _ _ w2 true w2).
  2:{ unfold path_exists. by rewrite bool_decide_eq_true_2. }
  unfold prompt_bool.
  rewrite (bind_ok _ _ _ _ _ (click_prompt_answer _ _ w2 false remaining Hno)).
  eexists. split; [reflexivity|]. cbn [w_fs w_trace w_cwd w_stdin with_trace with_stdin emit echo w2 snd fst].
  repeat split.
  - rewrite !calls_app, calls_prompts. cbn. by rewrite !app_nil_r.
  - by rewrite <- !app_assoc.
Qed.


(** The download from the world [wd], up to the clone: the workspace
    directory is made, then [git clone] runs in it. *)
Lemma download_clone (name url : string) (project : json) (wd : World)
  (fs1 : gmap path node) (k : M unit) :
  makedirs_from [] (project_path pf name) (w_fs wd) = Ok fs1 ->
  getitem project "git" = Ok (JStr url) ->
  let argv := ["git"; "clone"; url; show_path (project_path pf name)] in
  (spinner_start "⏳ Downloading the code...";;
   makedirs (project_path pf name);;
   url ← lift (url ← getitem project "git"; as_str url);
   subprocess_call pf ["git"; "clone"; url; show_path (project_path pf name)];;
   k) wd
  = k (with_fs (run_process pf argv (w_cwd wd) fs1)
         (with_trace (w_trace wd ++ [EvSpinner "⏳ Downloading the code...";
                                     EvCall argv (w_cwd wd)]) wd)).
Proof.
  intros Hmk Hurl argv.
  rewrite (bind_ok _ _ wd tt
             (with_trace (w_trace wd ++ [EvSpinner "⏳ Downloading the code..."]) wd))
    by done.
  rewrite (bind_ok _ _ _ tt
             (with_fs fs1
                (with_trace (w_trace wd ++ [EvSpinner "⏳ Downloading the code..."]) wd)))
    by (by apply fs_update_ok).
  unfold lift. rewrite bind_run, Hurl. cbn [mbind outcome_bind as_str].
  rewrite bind_run. unfold subprocess_call.
  cbn [w_fs w_cwd w_trace with_fs with_trace]. by rewrite <- app_assoc.
Qed.

(** The same with the check of lines 125-130 in front. *)
Lemma start_project_download (name : string) (w w1 : World)
  (catalog project : json) (fs0 : gmap path node) :
  fetch_repos pf w = (Ok catalog, w1) ->
  (exists projects, py_iter catalog = Ok projects
                    /\ find_project name projects = Ok (Some project)) ->
  which_git pf = true ->
  download_begins pf name w fs0 ->
  exists wd,
    start_project pf name w = download_project pf name project wd
    /\ w_fs wd = fs0 /\ w_cwd wd = w_cwd w
    /\ exists evs, w_trace wd = w_trace w ++ evs /\ calls evs = [].
Proof.
  intros Hfetch (ps & Hiter & Hfind) Hgit Hbegin.
  rewrite (start_project_found name w w1 catalog project ps) by done.
  set (w2 := with_trace (w_trace w ++ fetched) w).
  destruct Hbegin as [Habsent|rest fs0 Hthere Hyes Hrm].
  - exists w2. rewrite (bind_ok _ _ w2 false w2).
    + repeat split. by exists fetched.
    + unfold path_exists. cbn [w2 w_fs with_trace]. rewrite Habsent.
      rewrite bool_decide_eq_false_2; [done|]. by intros [? ?].
  - rewrite (bind_ok _ _ w2 true w2).
    2:{ unfold path_exists. by rewrite bool_decide_eq_true_2. }
    unfold prompt_bool.
    rewrite (bind_ok _ _ _ _ _ (click_prompt_answer _ _ w2 true rest Hyes)).
    set (w3 := with_stdin rest _).
    rewrite (bind_ok _ _ w3 tt (with_fs fs0 w3)) by (by apply fs_update_ok).
    exists (with_fs fs0 w3). repeat split.
    eexists. cbn [w_trace with_fs with_stdin with_trace w2 w3].
    rewrite <- app_assoc. split; [reflexivity|].
    by rewrite calls_app, calls_prompts.
Qed.

(** C9: [start_project] has reached the download, the workspace directory
    could be made and the clone has run; if the workspace then holds no
    [.gitignore], the command ends with [FileNotFoundError], raised by the
    [open] of line 145. The clone is the last thing that happened and the
    files are the ones it left: [coderelay.json] was not written. *)
Theorem C9_missing_gitignore (name url : string) (w w1 : World)
  (catalog project : json) (fs0 fs1 : gmap path node) :
  fetch_repos pf w = (Ok catalog, w1) ->
  (exists projects, py_iter catalog = Ok projects
                    /\ find_project name projects = Ok (Some project)) ->
  which_git pf = true ->
  download_begins pf name w fs0 ->
  makedirs_from [] (project_path pf name) fs0 = Ok fs1 ->
  getitem project "git" = Ok (JStr url) ->
  let argv := ["git"; "clone"; url; show_path (project_path pf name)] in
  let fs2 := run_process pf argv (w_cwd w) fs1 in
  node_at fs2 (project_path pf name) = Some Dir ->
  fs2 !! (project_path pf name ++ [".gitignore"]) = None ->
  exists w',
    start_project pf name w = (Raise FileNotFoundError, w')
    /\ w_fs w' = fs2
    /\ last (w_trace w') = Some (EvCall argv (w_cwd w))
    /\ w_fs w' !! (project_path pf name ++ ["coderelay.json"])
       = fs2 !! (project_path pf name ++ ["coderelay.json"]).
Proof.
  intros Hfetch Hfound Hgit Hbegin Hmk Hurl argv fs2 Hdir Hnone.
  destruct (start_project_download name w w1 catalog project fs0)
    as (wd & -> & Hfs & Hcwd & evs & Htrace & _); try done.
  unfold download_project. rewrite <- Hfs in Hmk.
  rewrite (download_clone name url project wd fs1) by done.
  rewrite Hcwd. fold argv fs2.
  eexists. rewrite bind_run. unfold add_ignore_rule.
  rewrite bind_run. unfold read_file, fs_read, parent_error.
  cbn [w_fs with_fs]. rewrite node_at_snoc, Hnone, dirname_snoc, Hdir.
  split; [reflexivity|]. cbn [w_fs w_trace with_fs with_trace].
  split; [done|]. split; [|done].
  change [EvSpinner "⏳ Downloading the code..."; EvCall argv (w_cwd w)]
    with ([EvSpinner "⏳ Downloading the code..."] ++ [EvCall argv (w_cwd w)]).
  rewrite app_assoc. apply last_snoc.
Qed.

Lemma keeps_fs_bind {A B} (c : M A) (f : A -> M B) :
  keeps_fs c -> (forall a, keeps_fs (f a)) -> keeps_fs (c ≫= f).
Proof.
  intros Hc Hf w. rewrite bind_run. specialize (Hc w).
  destruct (c w) as [[a|e] w1]; simpl in Hc; [|done].
  by rewrite Hf.
Qed.

Lemma keeps_fs_emit (e : event) : keeps_fs (emit e).
Proof. done. Qed.

Lemma keeps_fs_click_prompt {A} (conv : string -> option A) (text : string) :
  keeps_fs (click_prompt conv text).
Proof.
  intros w. unfold click_prompt.
  by destruct (read_answer conv (w_stdin w)) as [[a rest]|].
Qed.

(** Lines 156-163: from the end of the spinner on, no file is touched. *)
Lemma keeps_fs_download_end (name : string) :
  keeps_fs (spinner_finish;;
            echo ("✅ Project " +:+ name +:+ " downloaded to "
                  +:+ show_path (project_path pf name) +:+ ".");;
            echo "";;
            echo "Remember, have fun in your 15 minutes! 😀";;
            echo ("Once you're done, run `coderelay publish-changes " +:+ name +:+ "`.");;
            open_now ← prompt_bool pf "Do you want to open the project now (y/n)";
            if (open_now : bool) then cross_platform_open_file (project_path pf name)
            else pass).
Proof.
  unfold spinner_finish, echo, prompt_bool, cross_platform_open_file.
  repeat (apply keeps_fs_bind; [first [apply keeps_fs_emit | apply keeps_fs_click_prompt]|intros ?]).
  match goal with |- keeps_fs (if ?b then _ else _) => by destruct b end.
Qed.



(** Lines 145-148 on an existing [.gitignore]: with [coderelay.json] in the
    text nothing is written, otherwise the rule goes at the end. *)
Lemma add_ignore_rule_run (gitignore : path) (w : World) (text : string) :
  node_at (w_fs w) gitignore = Some (File text) ->
  add_ignore_rule gitignore w
  = (Ok tt,
     if str_contains "coderelay.json" text then w
     else with_fs (<[gitignore := File (text +:+ ignore_rule)]> (w_fs w)) w).
Proof.
  intros Hfile. unfold add_ignore_rule.
  rewrite (bind_ok _ _ w text w).
  2:{ unfold read_file, fs_read. by rewrite Hfile. }
  destruct (str_contains "coderelay.json" text); [done|].
  cbn [negb]. apply fs_update_ok. unfold fs_append. by rewrite Hfile.
Qed.






End Workspace.


(** ** Publishing: [publish_changes] *)

Section Publish.

Variable pf : Platform.

Local Abbreviation fork_prompt :=
  "What is the URL of your fork (example: https://github.com/username/project-name)".

Local Abbreviation confirm_prompt := "Do these changes look correct? (y/n)".

(** The four [git] commands of lines 200-209. *)
Local Abbreviation staging url :=
  [["git"; "remote"; "add"; "fork"; url];
   ["git"; "remote"; "set-url"; "fork"; url];
   ["git"; "add"; "."];
   ["git"; "diff"; "--staged"; "--name-only"]].

(** The files after the commands [argvs] have run one after the other in
    the directory [dir]. *)
Local Abbreviation after_processes argvs dir files :=
  (foldl (fun fs argv => run_process pf argv dir fs) files argvs).

(** Lines 172-197: the checks pass, the fork instructions are shown and the
    user gives the fork URL. *)
Lemma publish_to_stage (name text url : string) (w : World)
  (project_config upstream : json) (rest : list string) :
  node_at (w_fs w) (project_path pf name) = Some Dir ->
  which_git pf = true ->
  w_fs w !! (project_path pf name ++ ["coderelay.json"]) = Some (File text) ->
  ujson_loads pf text = Ok project_config ->
  getitem project_config "git" = Ok upstream ->
  read_answer Some (w_stdin w) = Some (url, rest) ->
  exists wu evs,
    publish_changes pf name w
    = (stage_changes pf name url;; confirm_and_upload pf project_config url) wu
    /\ w_fs wu = w_fs w
    /\ w_stdin wu = rest
    /\ w_trace wu = w_trace w ++ evs
    /\ calls evs = [].
Proof.
  intros Hdir Hgit Hmeta Hparse Hup Hurl. unfold publish_changes.
  rewrite (bind_ok _ _ w true w).
  2:{ unfold path_exists. by rewrite Hdir, bool_decide_eq_true_2. }
  rewrite Hgit. cbn [negb].
  rewrite (bind_ok _ _ w true w).
  2:{ unfold path_exists. rewrite node_at_snoc, Hmeta.
      by rewrite bool_decide_eq_true_2. }
  cbn [negb].
  rewrite (bind_ok _ _ w project_config w).
  2:{ rewrite (load_json_file pf _ w text) by (by rewrite node_at_snoc).
      by rewrite Hparse. }
  unfold secho, echo, lift, prompt_text.
  do 3 (rewrite bind_run; cbn [emit]).
  rewrite bind_run, Hup.
  do 4 (rewrite bind_run; cbn [emit]).
  rewrite bind_run, click_prompt_answer with (a := url) (rest := rest) by done.
  eexists _, _. split; [reflexivity|].
  cbn [w_fs w_stdin w_trace with_trace with_stdin].
  repeat split.
  - rewrite <- !app_assoc. reflexivity.
  - rewrite !calls_app, calls_prompts. reflexivity.
Qed.

(** Lines 199-209 in an existing workspace. *)
Lemma stage_changes_run (name url : string) (w : World) :
  node_at (w_fs w) (project_path pf name) = Some Dir ->
  exists ws evs,
    stage_changes pf name url w = (Ok tt, ws)
    /\ w_fs ws = after_processes (staging url) (project_path pf name) (w_fs w)
    /\ w_stdin ws = w_stdin w
    /\ w_trace ws = w_trace w ++ evs
    /\ calls evs = staging url.
Proof.
  intros Hdir. unfold stage_changes.
  rewrite (bind_ok _ _ w tt (with_cwd (project_path pf name) w)).
  2:{ unfold chdir. by rewrite Hdir. }
  unfold subprocess_call, secho.
  do 4 (rewrite bind_run; cbn [emit w_fs w_cwd w_trace with_fs with_trace with_cwd]).
  eexists _, _. split; [reflexivity|].
  cbn [w_fs w_stdin w_trace with_trace with_fs with_cwd].
  repeat split.
  - rewrite <- !app_assoc. reflexivity.
  - reflexivity.
Qed.

(** C7: the user gives a fork URL and then answers no to the question of
    line 210. The command ends without an error after "Aborting."; the
    subprocess calls it made are the four that set the remote, stage and
    list the changes, none of them [git commit] or [git push]; the files are
    as those four left them. *)
Theorem C7_decline_publishes_nothing (name text url : string) (w : World)
  (project_config upstream : json) (rest rest' : list string) :
  node_at (w_fs w) (project_path pf name) = Some Dir ->
  which_git pf = true ->
  w_fs w !! (project_path pf name ++ ["coderelay.json"]) = Some (File text) ->
  ujson_loads pf text = Ok project_config ->
  getitem project_config "git" = Ok upstream ->
  read_answer Some (w_stdin w) = Some (url, rest) ->
  read_answer (click_bool pf) rest = Some (false, rest') ->
  exists w',
    publish_changes pf name w = (Ok tt, w')
    /\ calls (w_trace w') = calls (w_trace w) ++ staging url
    /\ Forall (fun argv => argv !! 1%nat ≠ Some "commit" /\ argv !! 1%nat ≠ Some "push")
         (staging url)
    /\ last (w_trace w') = Some (EvEcho "Aborting.")
    /\ w_fs w' = after_processes (staging url) (project_path pf name) (w_fs w).
Proof.
  intros Hdir Hgit Hmeta Hparse Hup Hurl Hno.
  destruct (publish_to_stage name text url w project_config upstream rest)
    as (wu & evs1 & -> & Hfs1 & Hin1 & Htr1 & Hcalls1); try done.
  destruct (stage_changes_run name url wu) as (ws & evs2 & Hstage & Hfs2 & Hin2 & Htr2 & Hcalls2).
  { by rewrite Hfs1. }
  rewrite (bind_ok _ _ _ _ _ Hstage). unfold confirm_and_upload, prompt_bool.
  rewrite bind_run, click_prompt_answer with (a := false) (rest := rest')
    by (by rewrite Hin2, Hin1).
  eexists. split; [reflexivity|].
  cbn [negb echo emit w_fs w_trace with_trace with_stdin].
  split; [|split; [|split]].
  - rewrite Htr2, Htr1, !calls_app, Hcalls1, Hcalls2, calls_prompts.
    cbn. by rewrite !app_nil_r.
  - repeat constructor; done.
  - apply last_snoc.
  - by rewrite Hfs2, Hfs1.
Qed.

Lemma split_on_sep (a b : string) :
  slash ∉ String.list_ascii_of_string a ->
  split_on slash (a +:+ String slash b) = a :: split_on slash b.
Proof.
  induction a as [|c a IH]; intros Hfree.
  - change ("" +:+ String slash b) with (String slash b). cbn [split_on].
    by rewrite Ascii.eqb_refl.
  - change (String c a +:+ String slash b) with (String c (a +:+ String slash b)).
    cbn [split_on String.list_ascii_of_string] in *.
    apply not_elem_of_cons in Hfree as [Hc Ha].
    rewrite IH by done.
    destruct (Ascii.eqb_spec c slash) as [->|_]; done.
Qed.

(** The owner is the piece at index 3 of a GitHub fork URL. *)
Lemma github_owner (owner repo : string) :
  slash ∉ String.list_ascii_of_string owner ->
  split_on slash ("https://github.com/" +:+ owner +:+ "/" +:+ repo) !! 3%nat
  = Some owner.
Proof.
  intros Hfree.
  change ("https://github.com/" +:+ owner +:+ "/" +:+ repo)
    with ("https:" +:+ String slash
            ("" +:+ String slash
               ("github.com" +:+ String slash (owner +:+ String slash repo)))).
  rewrite !split_on_sep; try done.
  all: apply (bool_decide_unpack _); by vm_compute.
Qed.

(** C8: the user gives the fork URL [url] and confirms. With a string under
    [git] and under [task.desc] in the metadata, and a piece [segment] at
    index 3 of [url] split at [/], the command commits, pushes and ends with
    the line [<git>/compare/main...<segment>:main]. For a URL
    [https://github.com/<owner>/<repo>] that piece is [<owner>]. *)
Theorem C8_compare_url (name text url upstream body segment : string)
  (w : World) (project_config task : json) (rest rest' : list string) :
  node_at (w_fs w) (project_path pf name) = Some Dir ->
  which_git pf = true ->
  w_fs w !! (project_path pf name ++ ["coderelay.json"]) = Some (File text) ->
  ujson_loads pf text = Ok project_config ->
  getitem project_config "git" = Ok (JStr upstream) ->
  getitem project_config "task" = Ok task ->
  getitem task "desc" = Ok (JStr body) ->
  read_answer Some (w_stdin w) = Some (url, rest) ->
  read_answer (click_bool pf) rest = Some (true, rest') ->
  split_on slash url !! 3%nat = Some segment ->
  (exists w',
     publish_changes pf name w = (Ok tt, w')
     /\ last (w_trace w')
        = Some (EvEcho (upstream +:+ "/compare/main..." +:+ segment +:+ ":main"))
     /\ calls (w_trace w')
        = calls (w_trace w) ++ staging url
          ++ [["git"; "commit"; "-m"; "Code Relay"; "-m"; body];
              ["git"; "push"; "fork"]])
  /\ (forall owner repo,
        slash ∉ String.list_ascii_of_string owner ->
        split_on slash ("https://github.com/" +:+ owner +:+ "/" +:+ repo) !! 3%nat
        = Some owner).
Proof.
  intros Hdir Hgit Hmeta Hparse Hup Htask Hdesc Hurl Hyes Hseg.
  split; [|apply github_owner].
  destruct (publish_to_stage name text url w project_config (JStr upstream) rest)
    as (wu & evs1 & -> & Hfs1 & Hin1 & Htr1 & Hcalls1); try done.
  destruct (stage_changes_run name url wu)
    as (ws & evs2 & Hstage & Hfs2 & Hin2 & Htr2 & Hcalls2).
  { by rewrite Hfs1. }
  rewrite (bind_ok _ _ _ _ _ Hstage). unfold confirm_and_upload, prompt_bool.
  rewrite bind_run, click_prompt_answer with (a := true) (rest := rest')
    by (by rewrite Hin2, Hin1).
  cbn [negb]. unfold echo, lift, subprocess_call.
  rewrite bind_run; cbn [emit].
  rewrite bind_run, Htask. cbn [mbind outcome_bind]. rewrite Hdesc.
  cbn [mbind outcome_bind as_str].
  do 5 (rewrite bind_run; cbn [emit]).
  rewrite bind_run, Hup, bind_run, Hseg.
  eexists. split; [reflexivity|].
  cbn [py_str w_fs w_cwd w_trace with_fs with_trace with_stdin].
  split.
  - apply last_snoc.
  - rewrite Htr2, Htr1, !calls_app, Hcalls1, Hcalls2, calls_prompts.
    cbn. by rewrite !app_nil_r, <- !app_assoc.
Qed.

End Publish.

(** ** The properties at concrete inputs *)

(** Decides a closed proposition by computation. *)
Ltac by_computation := apply (bool_decide_unpack _); vm_compute; exact I.

(** The claim C1 as the specification words it fails here: the project
    [web_app] has the frameworks [django] (excluded) and [flask] (unknown),
    its only language is accepted, and the verdict is "excluded framework",
    not "new framework". *)
Lemma C1_counterexample :
  (forall l, l ∈ p_languages Demo.web_app -> l ∈ z_languages Demo.no_django)
  /\ p_frameworks Demo.web_app = ["django"; "flask"]
  /\ ("django" ∈ z_excluded_frameworks Demo.no_django)
  /\ ("flask" ∉ z_frameworks Demo.no_django)
  /\ ("flask" ∉ z_excluded_frameworks Demo.no_django)
  /\ classify (project_json Demo.web_app) (prefs_json Demo.no_django)
     = Ok ("excluded framework", "red")
  /\ classify (project_json Demo.web_app) (prefs_json Demo.no_django)
     ≠ Ok ("new framework", "yellow").
Proof.
  split; [by intros l Hl|]. split; [done|].
  split; [by_computation|]. split; [by_computation|]. split; [by_computation|].
  split; [by vm_compute|]. by vm_compute.
Qed.

Lemma C1_witness :
  classify (project_json Demo.web_app) (prefs_json Demo.no_django)
  = Ok excluded_framework.
Proof.
  apply (C1_excluded_then_new Demo.web_app Demo.no_django "django" "flask").
  - intros l Hl. exact Hl.
  - reflexivity.
  - by_computation.
  - by_computation.
  - by_computation.
Defined.

Lemma C2_witness :
  classify (project_json Demo.bare) (prefs_json Demo.python_only) = Ok new_language.
Proof.
  apply (C2_new_language Demo.bare Demo.python_only "rust"); by_computation.
Defined.

Lemma C3_witness :
  classify (project_json Demo.foo) (prefs_json Demo.python_only) = Ok good_match.
Proof.
  apply (C3_good_match Demo.foo Demo.python_only).
  - intros l Hl. exact Hl.
  - intros f Hf. by apply not_elem_of_nil in Hf.
  - intros f Hf. by apply not_elem_of_nil in Hf.
Defined.

(** In the fresh home directory only directories are on the way to the
    preference file. *)
Lemma fresh_fs_dirs (q : path) (text : string) :
  Demo.fresh_fs !! q ≠ Some (File text).
Proof.
  unfold Demo.fresh_fs. rewrite !lookup_insert, lookup_empty.
  repeat case_decide; done.
Qed.

Lemma C4_witness :
  exists fs',
    load_or_init_preferences Demo.platform (Demo.world Demo.fresh_fs [])
    = (Ok default_config, with_fs fs' (Demo.world Demo.fresh_fs []))
    /\ fs' !! ["home"; "dev"; ".config"; "coderelay"; "coderelay.json"]
       = Some (File (Demo.dumps 0 default_config))
    /\ fs' !! ["home"; "dev"; ".config"; "coderelay"] = Some Dir.
Proof.
  destruct (C4_preference_store Demo.platform (Demo.world Demo.fresh_fs []))
    as (fs' & Hrun & Hfile & Hdirs & _).
  - vm_compute. reflexivity.
  - vm_compute. reflexivity.
  - intros q text _ _. apply fresh_fs_dirs.
  - exists fs'. split; [exact Hrun|]. split; [exact Hfile|].
    apply Hdirs; [done|]. vm_compute. by exists [].
Defined.

Lemma C5_witness :
  exists w',
    start_project Demo.platform "foo" (Demo.world Demo.workspace_fs ["n"])
    = (Ok tt, w')
    /\ w_fs w' = Demo.workspace_fs
    /\ calls (w_trace w') = [].
Proof.
  destruct (C5_decline_keeps_workspace Demo.platform "foo"
              (Demo.world Demo.workspace_fs ["n"])
              (fetch_repos Demo.platform (Demo.world Demo.workspace_fs ["n"])).2
              (JArr [project_json Demo.foo; project_json Demo.bare])
              (project_json Demo.foo) [])
    as (w' & Hrun & Hfs & Hcalls & _).
  - vm_compute. reflexivity.
  - exists [project_json Demo.foo; project_json Demo.bare]. by vm_compute.
  - reflexivity.
  - exists Dir. vm_compute. reflexivity.
  - vm_compute. reflexivity.
  - exists w'. split; [exact Hrun|]. split; [exact Hfs|exact Hcalls].
Defined.

Lemma C7_witness :
  exists w',
    publish_changes Demo.platform "foo"
      (Demo.world Demo.workspace_fs ["https://github.com/dev/foo"; "n"])
    = (Ok tt, w')
    /\ calls (w_trace w')
       = [["git"; "remote"; "add"; "fork"; "https://github.com/dev/foo"];
          ["git"; "remote"; "set-url"; "fork"; "https://github.com/dev/foo"];
          ["git"; "add"; "."];
          ["git"; "diff"; "--staged"; "--name-only"]].
Proof.
  destruct (C7_decline_publishes_nothing Demo.platform "foo"
              (Demo.dumps 4 (project_json Demo.foo)) "https://github.com/dev/foo"
              (Demo.world Demo.workspace_fs ["https://github.com/dev/foo"; "n"])
              (project_json Demo.foo) (JStr "https://example.com/foo.git") ["n"] [])
    as (w' & Hrun & Hcalls & _).
  - vm_compute. reflexivity.
  - reflexivity.
  - vm_compute. reflexivity.
  - vm_compute. reflexivity.
  - reflexivity.
  - reflexivity.
  - reflexivity.
  - exists w'. split; [exact Hrun|exact Hcalls].
Defined.

Lemma C8_witness :
  exists w',
    publish_changes Demo.platform "foo"
      (Demo.world Demo.workspace_fs ["https://github.com/dev/foo"; "y"])
    = (Ok tt, w')
    /\ last (w_trace w')
       = Some (EvEcho "https://example.com/foo.git/compare/main...dev:main").
Proof.
  destruct (C8_compare_url Demo.platform "foo"
              (Demo.dumps 4 (project_json Demo.foo)) "https://github.com/dev/foo"
              "https://example.com/foo.git" "fix the typo" "dev"
              (Demo.world Demo.workspace_fs ["https://github.com/dev/foo"; "y"])
              (project_json Demo.foo) (JObj [("desc", JStr "fix the typo")])
              ["y"] [])
    as [(w' & Hrun & Hlast & _) _].
  - vm_compute. reflexivity.
  - reflexivity.
  - vm_compute. reflexivity.
  - vm_compute. reflexivity.
  - reflexivity.
  - reflexivity.
  - reflexivity.
  - reflexivity.
  - reflexivity.
  - reflexivity.
  - exists w'. split; [exact Hrun|exact Hlast].
Defined.

Lemma C9_witness :
  exists w',
    start_project Demo.platform "bare" (Demo.world Demo.fresh_fs [])
    = (Raise FileNotFoundError, w')
    /\ w_fs w' !! ["home"; "dev"; "Documents"; "code-relay"; "bare"; "coderelay.json"]
       = None.
Proof.
  set (w0 := Demo.world Demo.fresh_fs []).
  set (workspace := ["home"; "dev"; "Documents"; "code-relay"; "bare"]).
  set (fs1 := <[workspace := Dir]>
                (<[["home"; "dev"; "Documents"; "code-relay"] := Dir]> Demo.fresh_fs)).
  destruct (C9_missing_gitignore Demo.platform "bare" "https://example.com/bare.git"
              w0 (fetch_repos Demo.platform w0).2
              (JArr [project_json Demo.foo; project_json Demo.bare])
              (project_json Demo.bare) Demo.fresh_fs fs1)
    as (w' & Hrun & Hfs & _).
  - vm_compute. reflexivity.
  - exists [project_json Demo.foo; project_json Demo.bare]. by vm_compute.
  - reflexivity.
  - apply (begins_fresh Demo.platform "bare" w0). vm_compute. reflexivity.
  - vm_compute. reflexivity.
  - reflexivity.
  - vm_compute. reflexivity.
  - vm_compute. reflexivity.
  - exists w'. split; [exact Hrun|]. rewrite Hfs. vm_compute. reflexivity.
Defined.

Lemma C10_witness :
  list_repos Demo.platform (Demo.world Demo.fresh_fs [])
  = (Ok tt,
     with_trace
       [EvSpinner "⏳ Fetching repos..."; EvHttpGet catalog_url; EvSpinnerFinish;
        EvEcho "Please run `coderelay user-prefs` to configure your preferences."]
       (Demo.world Demo.fresh_fs [])).
Proof.
  destruct (C10_list_repos_without_preferences Demo.platform) as [_ Hquiet].
  destruct (Hquiet (Demo.world Demo.fresh_fs [])
              (fetch_repos Demo.platform (Demo.world Demo.fresh_fs [])).2
              (JArr [project_json Demo.foo; project_json Demo.bare]))
    as [Hrun _].
  - vm_compute. reflexivity.
  - vm_compute. reflexivity.
  - exact Hrun.
Defined.

(** The end-to-end run of the specification: the catalog lists [foo] (Python,
    no framework), the preferences accept Python, and [list_repos] prints
    [foo, d good match] in green. *)
Example list_repos_end_to_end :
  w_trace (list_repos Demo.platform (Demo.world Demo.python_prefs_fs [])).2
  = [EvSpinner "⏳ Fetching repos..."; EvHttpGet catalog_url; EvSpinnerFinish;
     EvSecho "foo, d good match" (Fg "green");
     EvSecho "bare, no ignore file new language" (Fg "red");
     EvEcho "Get started on one by running `coderelay start-project <project-name>`."].
Proof. vm_compute. reflexivity. Qed.

(** A regular file in the place of the configuration directory: the store
    raises and writes nothing. *)
Example preference_store_blocked :
  load_or_init_preferences Demo.platform (Demo.world Demo.blocked_fs [])
  = (Raise FileExistsError, Demo.world Demo.blocked_fs []).
Proof. vm_compute. reflexivity. Qed.

(** A fork URL with fewer than four pieces: the commit and the push are
    made, then line 222 raises [IndexError] and no link is printed. *)
Example short_fork_url :
  let r := publish_changes Demo.platform "foo"
             (Demo.world Demo.workspace_fs ["github.com/dev/foo"; "y"]) in
  r.1 = Raise IndexError
  /\ last (calls (w_trace r.2)) = Some ["git"; "push"; "fork"].
Proof. split; vm_compute; reflexivity. Qed.

(** * Further properties of the commands *)

(** ** The matcher, all verdicts *)

Section Verdicts.

Implicit Types (P : Project) (Z : Preferences).

Lemma forallb_known_false (l pl : list string) :
  forallb (known_in l) pl = false <-> (exists x, x ∈ pl /\ x ∉ l).
Proof.
  induction pl as [|a pl IH]; cbn [forallb].
  - split; [done|]. intros (x & Hx & _). by apply not_elem_of_nil in Hx.
  - rewrite andb_false_iff, IH. unfold known_in at 1.
    rewrite bool_decide_eq_false. split.
    + intros [Ha|(x & Hx & Hl)]; [exists a|exists x]; split; try done.
      * left.
      * by right.
    + intros (x & Hx & Hl). apply elem_of_cons in Hx as [->|Hx]; eauto.
Qed.

Lemma existsb_known_false (l pf : list string) :
  existsb (known_in l) pf = false <-> (forall x, x ∈ pf -> x ∉ l).
Proof.
  split.
  - intros Hnone x Hx Hl.
    assert (existsb (known_in l) pf = true) by (apply existsb_known; eauto).
    congruence.
  - intros Hall. destruct (existsb (known_in l) pf) eqn:Hsome; [|done].
    apply existsb_known in Hsome as (x & Hx & Hl). by destruct (Hall x Hx).
Qed.

(** X2: On string tags the matcher always ends with one of the four verdicts and
    each of them is characterised by the tags: a language the preferences
    lack; else an excluded framework; else a framework the preferences
    lack; else none of these. *)
Theorem classify_verdicts P Z :
  let v := classify (project_json P) (prefs_json Z) in
  let languages_known := forall l, l ∈ p_languages P -> l ∈ z_languages Z in
  let none_excluded :=
    forall f, f ∈ p_frameworks P -> f ∉ z_excluded_frameworks Z in
  (v = Ok ("new language", "red")
   <-> exists l, l ∈ p_languages P /\ l ∉ z_languages Z)
  /\ (v = Ok ("excluded framework", "red")
      <-> languages_known
          /\ exists f, f ∈ p_frameworks P /\ f ∈ z_excluded_frameworks Z)
  /\ (v = Ok ("new framework", "yellow")
      <-> languages_known /\ none_excluded
          /\ exists f, f ∈ p_frameworks P /\ f ∉ z_frameworks Z)
  /\ (v = Ok ("good match", "green")
      <-> languages_known /\ none_excluded
          /\ forall f, f ∈ p_frameworks P -> f ∈ z_frameworks Z).
Proof.
  intros v languages_known none_excluded. subst v languages_known none_excluded.
  rewrite classify_precedence. unfold precedence.
  destruct (forallb _ (p_languages P)) eqn:Hl;
    [rewrite forallb_known in Hl|rewrite forallb_known_false in Hl];
    (destruct (existsb _ (p_frameworks P)) eqn:He;
     [rewrite existsb_known in He|rewrite existsb_known_false in He]);
    try (destruct (forallb _ (p_frameworks P)) eqn:Hf;
         [rewrite forallb_known in Hf|rewrite forallb_known_false in Hf]);
    cbn [negb];
    unfold new_language, excluded_framework, new_framework, good_match;
    repeat split; intros;
    repeat match goal with
           | H : _ /\ _ |- _ => destruct H
           | H : exists _, _ |- _ => destruct H
           end;
    unfold not in *; try done; try (exfalso; eauto; fail); eauto.
Qed.

(** X4: The keys of the preferences are read inside the loops: a project with
    no language and no framework is a good match for any configuration,
    even one that is not a dict; with a language to check, a configuration
    without [languages] raises [KeyError], and with no language but a
    framework to check, one without [excluded_frameworks] does. *)
Theorem classify_reads_keys_lazily P :
  (p_languages P = [] -> p_frameworks P = [] ->
   forall config, classify (project_json P) config = Ok good_match)
  /\ (p_languages P ≠ [] ->
      forall members, assoc "languages" members = None ->
        classify (project_json P) (JObj members) = Raise (KeyError "languages"))
  /\ (p_languages P = [] -> p_frameworks P ≠ [] ->
      forall members, assoc "excluded_frameworks" members = None ->
        classify (project_json P) (JObj members)
        = Raise (KeyError "excluded_frameworks")).
Proof.
  unfold classify.
  change (getitem (project_json P) "languages") with (Ok (tags (p_languages P))).
  change (getitem (project_json P) "frameworks") with (Ok (tags (p_frameworks P))).
  unfold tags. cbn [mbind outcome_bind py_iter].
  split; [|split].
  - by intros -> ->.
  - intros Hsome members Hnone.
    destruct (p_languages P) as [|l pl]; [done|].
    cbn [map language_loop getitem]. by rewrite Hnone.
  - intros -> Hsome members Hnone.
    destruct (p_frameworks P) as [|f pf]; [done|].
    cbn [map language_loop framework_loop getitem mbind outcome_bind].
    by rewrite Hnone.
Qed.

(** [start_project] takes the first entry of the catalog with the given
    name. *)
Lemma find_project_typed (name : string) (Ps : list Project) :
  find_project name (map project_json Ps)
  = Ok (option_map project_json
          (List.find (fun P => String.eqb (p_name P) name) Ps)).
Proof.
  induction Ps as [|P Ps IH]; [done|].
  cbn [map find_project List.find].
  change (getitem (project_json P) "name") with (Ok (JStr (p_name P))).
  cbn [mbind outcome_bind].
  change (py_eq (JStr (p_name P)) (JStr name)) with (String.eqb (p_name P) name).
  by destruct (String.eqb (p_name P) name).
Qed.

Lemma py_eq_str (v : json) (s : string) : py_eq v (JStr s) = true -> v = JStr s.
Proof.
  destruct v; try done. cbn [py_eq]. intros H%String.eqb_eq. by subst.
Qed.

(** X6: The lookup of lines 115-117: on a catalog of typed projects it is the
    first one with that name; on any catalog, what it finds is an entry of
    the catalog and a dict with exactly that string under [name], and when
    it finds nothing no entry has that name. *)
Theorem find_project_first (name : string) :
  (forall Ps,
     find_project name (map project_json Ps)
     = Ok (option_map project_json
             (List.find (fun P => String.eqb (p_name P) name) Ps)))
  /\ (forall projects project,
        find_project name projects = Ok (Some project) ->
        project ∈ projects /\ getitem project "name" = Ok (JStr name))
  /\ (forall projects,
        find_project name projects = Ok None ->
        forall project, project ∈ projects ->
          getitem project "name" ≠ Ok (JStr name)).
Proof.
  split; [apply find_project_typed|]. split.
  - intros projects project. induction projects as [|p ps IH]; [done|].
    cbn [find_project]. destruct (getitem p "name") as [v|e] eqn:Hname; [|done].
    cbn [mbind outcome_bind]. destruct (py_eq v (JStr name)) eqn:Heq.
    + intros [= <-]. apply py_eq_str in Heq as ->. split; [left|done].
    + intros Hfound. destruct (IH Hfound) as [Hin Hn]. split; [by right|done].
  - intros projects. induction projects as [|p ps IH]; intros Hnone project Hin.
    { by apply not_elem_of_nil in Hin. }
    cbn [find_project] in Hnone.
    destruct (getitem p "name") as [v|e] eqn:Hname; [|done].
    cbn [mbind outcome_bind] in Hnone.
    destruct (py_eq v (JStr name)) eqn:Heq; [done|].
    apply elem_of_cons in Hin as [->|Hin]; [|by apply IH].
    rewrite Hname. intros [= ->]. cbn [py_eq] in Heq.
    by rewrite String.eqb_refl in Heq.
Qed.

(** X3: The verdict depends on the tags only as sets: the order of the lists of
    the project and of the preferences, and repeated tags, change
    nothing. *)
Theorem classify_order_irrelevant P P' Z Z' :
  (forall x, x ∈ p_languages P <-> x ∈ p_languages P') ->
  (forall x, x ∈ p_frameworks P <-> x ∈ p_frameworks P') ->
  (forall x, x ∈ z_languages Z <-> x ∈ z_languages Z') ->
  (forall x, x ∈ z_frameworks Z <-> x ∈ z_frameworks Z') ->
  (forall x, x ∈ z_excluded_frameworks Z <-> x ∈ z_excluded_frameworks Z') ->
  classify (project_json P) (prefs_json Z)
  = classify (project_json P') (prefs_json Z').
Proof.
  intros Hpl Hpf Hzl Hzf Hzx. rewrite !classify_precedence. unfold precedence.
  assert (Hl : forallb (known_in (z_languages Z)) (p_languages P)
               = forallb (known_in (z_languages Z')) (p_languages P')).
  { apply eq_true_iff_eq. rewrite !forallb_known. split; intros H x Hx.
    - apply Hzl, H, Hpl, Hx.
    - apply Hzl, H, Hpl, Hx. }
  assert (Hx : existsb (known_in (z_excluded_frameworks Z)) (p_frameworks P)
               = existsb (known_in (z_excluded_frameworks Z')) (p_frameworks P')).
  { apply eq_true_iff_eq. rewrite !existsb_known.
    split; intros (x & Hin & Hex); exists x; split;
      first [by apply Hpf | by apply Hzx]. }
  assert (Hf : forallb (known_in (z_frameworks Z)) (p_frameworks P)
               = forallb (known_in (z_frameworks Z')) (p_frameworks P')).
  { apply eq_true_iff_eq. rewrite !forallb_known. split; intros H x Hin.
    - apply Hzf, H, Hpf, Hin.
    - apply Hzf, H, Hpf, Hin. }
  by rewrite Hl, Hx, Hf.
Qed.

(** X5: A string where the preferences should have the list of languages: the
    [in] of line 87 is then Python's substring test, so a language of the
    project counts as known exactly when it occurs in that string. *)
Theorem classify_string_preferences P (accepted : string)
  (others : list (string * json)) :
  p_frameworks P = [] ->
  classify (project_json P) (JObj (("languages", JStr accepted) :: others))
  = Ok (if forallb (fun l => str_contains l accepted) (p_languages P)
        then good_match else new_language).
Proof.
  intros Hnone. unfold classify.
  change (getitem (project_json P) "languages") with (Ok (tags (p_languages P))).
  change (getitem (project_json P) "frameworks") with (Ok (tags (p_frameworks P))).
  rewrite Hnone. unfold tags. cbn [mbind outcome_bind py_iter map].
  assert (Hloop : forall m,
             language_loop (JObj (("languages", JStr accepted) :: others))
               (map JStr (p_languages P)) m
             = Ok (if forallb (fun l => str_contains l accepted) (p_languages P)
                   then m else new_language)).
  { intros m. induction (p_languages P) as [|l pl IH]; [done|].
    cbn [map language_loop forallb].
    change (getitem (JObj (("languages", JStr accepted) :: others)) "languages")
      with (Ok (JStr accepted)).
    cbn [mbind outcome_bind py_contains].
    destruct (str_contains l accepted); cbn [negb andb]; [apply IH|done]. }
  rewrite Hloop. cbn [mbind outcome_bind framework_loop].
  by destruct (forallb _ _).
Qed.

End Verdicts.

(** ** The catalog fetch, all outcomes *)

Section Fetch.

Variable pf : Platform.

Local Abbreviation spinning :=
  [EvSpinner "⏳ Fetching repos..."; EvHttpGet catalog_url].

(** X1: Lines 21-33 catch nothing. A failed read, a reply without [content]
    ([KeyError], or [TypeError] for a reply that is not an object), a
    content that is not a string ([AttributeError], from [.encode()]) and a
    failed base64 decoding end the command with that exception and the
    spinner is never finished; once the content is
    decoded the spinner is finished first and the result, value or
    exception, is the one of [ujson.loads]. The world is otherwise as
    before. *)
Theorem fetch_repos_outcomes (w : World) :
  (forall e,
     http_get_json pf catalog_url = Raise e ->
     fetch_repos pf w = (Raise e, with_trace (w_trace w ++ spinning) w))
  /\ (forall response e,
        http_get_json pf catalog_url = Ok response ->
        (content ← getitem response "content"; str_encode content) = Raise e ->
        fetch_repos pf w = (Raise e, with_trace (w_trace w ++ spinning) w))
  /\ (forall response content e,
        http_get_json pf catalog_url = Ok response ->
        getitem response "content" = Ok (JStr content) ->
        b64decode pf content = Raise e ->
        fetch_repos pf w = (Raise e, with_trace (w_trace w ++ spinning) w))
  /\ (forall response content decoded,
        http_get_json pf catalog_url = Ok response ->
        getitem response "content" = Ok (JStr content) ->
        b64decode pf content = Ok decoded ->
        fetch_repos pf w
        = (ujson_loads pf decoded,
           with_trace (w_trace w ++ spinning ++ [EvSpinnerFinish]) w)).
Proof.
  assert (Hstart : forall k : M json,
             (spinner_start "⏳ Fetching repos...";;
              emit (EvHttpGet catalog_url);; k) w
             = k (with_trace (w_trace w ++ spinning) w)).
  { intros k. unfold spinner_start.
    rewrite (bind_ok _ _ w tt
               (with_trace (w_trace w ++ [EvSpinner "⏳ Fetching repos..."]) w))
      by done.
    rewrite (bind_ok _ _ _ tt (with_trace (w_trace w ++ spinning) w)); [done|].
    unfold emit. cbn [w_trace with_trace]. by rewrite <- app_assoc. }
  unfold fetch_repos. rewrite Hstart. unfold lift, spinner_finish.
  repeat split.
  - intros e He. by rewrite bind_run, He.
  - intros response e Hr He. rewrite bind_run, Hr.
    destruct (getitem response "content") as [content|e'].
    + cbn [mbind outcome_bind] in He. by rewrite !bind_run, He.
    + cbn [mbind outcome_bind] in He. injection He as ->. by rewrite bind_run.
  - intros response content e Hr Hc He.
    rewrite bind_run, Hr, bind_run, Hc, bind_run. cbn [str_encode].
    by rewrite bind_run, He.
  - intros response content decoded Hr Hc Hd.
    rewrite bind_run, Hr, bind_run, Hc, bind_run. cbn [str_encode].
    rewrite bind_run, Hd, bind_run.
    cbn [emit w_trace with_trace]. by rewrite <- app_assoc.
Qed.

End Fetch.

(** ** Commands that only talk *)

Section ReadOnly.

Context {A B : Type}.

Lemma read_only_bind (c : M A) (f : A -> M B) :
  read_only c -> (forall a, read_only (f a)) -> read_only (c ≫= f).
Proof.
  intros Hc Hf w. rewrite bind_run. destruct (Hc w) as (Hfs & Hin & Hcwd & Hcalls).
  destruct (c w) as [[a|e] w1]; cbn [snd] in *; [|done].
  destruct (Hf a w1) as (Hfs' & Hin' & Hcwd' & Hcalls').
  by rewrite Hfs', Hin', Hcwd', Hcalls'.
Qed.

Lemma read_only_same (c : M A) :
  (forall w, (c w).2 = w) -> read_only c.
Proof. intros H w. by rewrite H. Qed.

Lemma read_only_lift (o : outcome A) : read_only (lift o).
Proof. by apply read_only_same. Qed.

End ReadOnly.

Lemma read_only_emit (e : event) : calls [e] = [] -> read_only (emit e).
Proof.
  intros He w. cbn [emit snd w_fs w_stdin w_cwd w_trace with_trace].
  by rewrite calls_app, He, app_nil_r.
Qed.

Lemma read_only_path_exists (p : path) : read_only (path_exists p).
Proof. by apply read_only_same. Qed.

Lemma read_only_read_file (p : path) : read_only (read_file p).
Proof. by apply read_only_same. Qed.

Lemma read_only_for_each {A} (body : A -> M unit) (items : list A) :
  (forall x, read_only (body x)) -> read_only (for_each body items).
Proof.
  intros Hbody. induction items as [|x items IH]; cbn [for_each].
  - by apply read_only_same.
  - by apply read_only_bind.
Qed.

Lemma read_only_fetch_repos (pf : Platform) : read_only (fetch_repos pf).
Proof.
  intros w. destruct (fetch_repos_run pf w) as (r & evs & -> & Hcalls & _).
  cbn [snd w_fs w_stdin w_cwd w_trace with_trace].
  by rewrite !calls_app, Hcalls, !app_nil_r.
Qed.

(** X7: [list_repos] changes nothing: however it ends, no file is created or
    written, no input is read, the working directory stays and no
    subprocess is called. *)
Theorem list_repos_read_only (pf : Platform) : read_only (list_repos pf).
Proof.
  unfold list_repos, load_json, show_project, echo, secho.
  apply read_only_bind; [apply read_only_fetch_repos|intros catalog].
  apply read_only_bind; [apply read_only_path_exists|intros present].
  destruct present; cbn [negb]; [|by apply read_only_emit].
  apply read_only_bind.
  { apply read_only_bind; [apply read_only_read_file|intros text].
    apply read_only_lift. }
  intros config.
  apply read_only_bind; [apply read_only_lift|intros projects].
  apply read_only_bind; [|intros []; by apply read_only_emit].
  apply read_only_for_each. intros project.
  repeat (apply read_only_bind; [apply read_only_lift|intros ?]).
  by apply read_only_emit.
Qed.

(** ** What [list_repos] prints *)

Section Lines.

Variable pf : Platform.

Local Abbreviation fetched :=
  [EvSpinner "⏳ Fetching repos..."; EvHttpGet catalog_url; EvSpinnerFinish].

Local Abbreviation hint :=
  (EvEcho "Get started on one by running `coderelay start-project <project-name>`.").

Lemma show_project_typed (Z : Preferences) (P : Project) (w : World) :
  show_project pf (prefs_json Z) (project_json P) w
  = (Ok tt, with_trace (w_trace w ++ [verdict_line Z P]) w).
Proof.
  unfold show_project, lift. rewrite bind_run, classify_precedence.
  change (getitem (project_json P) "name") with (Ok (JStr (p_name P))).
  change (getitem (project_json P) "desc") with (Ok (JStr (p_desc P))).
  by rewrite !bind_run.
Qed.

(** The loop of line 83 over typed projects followed by other entries. *)
Lemma for_each_typed (Z : Preferences) (Ps : list Project) (rest : list json) :
  forall w,
    for_each (show_project pf (prefs_json Z)) (map project_json Ps ++ rest) w
    = for_each (show_project pf (prefs_json Z)) rest
        (with_trace (w_trace w ++ map (verdict_line Z) Ps) w).
Proof.
  induction Ps as [|P Ps IH]; intros w.
  - cbn [map app]. rewrite app_nil_r. by destruct w.
  - cbn [map app for_each]. rewrite bind_run, show_project_typed, IH.
    cbn [w_trace with_trace]. by rewrite <- app_assoc.
Qed.

(** The run of [list_repos] up to the loop. *)
Lemma list_repos_loop (w w1 : World) (text : string) (config : json)
  (projects : list json) :
  fetch_repos pf w = (Ok (JArr projects), w1) ->
  w_fs w !! config_path pf = Some (File text) ->
  ujson_loads pf text = Ok config ->
  list_repos pf w
  = (for_each (show_project pf config) projects;; emit hint)
      (with_trace (w_trace w ++ fetched) w).
Proof.
  intros Hfetch Hfile Hparse. unfold list_repos.
  rewrite (bind_ok _ _ _ _ _ Hfetch). apply fetch_repos_ok in Hfetch as ->.
  set (w2 := with_trace _ w).
  rewrite (bind_ok _ _ w2 true w2).
  2:{ unfold path_exists. cbn [w2 w_fs with_trace].
      by rewrite node_at_config, Hfile, bool_decide_eq_true_2. }
  cbn [negb].
  rewrite (bind_ok _ _ w2 config w2).
  2:{ rewrite (load_json_file pf _ w2 text) by (by rewrite node_at_config).
      by rewrite Hparse. }
  by rewrite (bind_ok _ _ w2 projects w2).
Qed.

(** X8: With a preference file in place and a catalog of typed projects,
    [list_repos] prints one line per project, in the order of the catalog,
    with the verdict of the matcher and its colour, then the hint; nothing
    else in the world changes. *)
Theorem list_repos_prints (Z : Preferences) (Ps : list Project)
  (w w1 : World) (text : string) :
  fetch_repos pf w = (Ok (JArr (map project_json Ps)), w1) ->
  w_fs w !! config_path pf = Some (File text) ->
  ujson_loads pf text = Ok (prefs_json Z) ->
  list_repos pf w
  = (Ok tt,
     with_trace (w_trace w ++ fetched ++ map (verdict_line Z) Ps ++ [hint]) w).
Proof.
  intros Hfetch Hfile Hparse.
  rewrite (list_repos_loop w w1 text (prefs_json Z) _ Hfetch Hfile Hparse).
  rewrite bind_run. rewrite <- (app_nil_r (map project_json Ps)).
  rewrite for_each_typed.
  cbn [for_each mret M_ret]. unfold emit, with_trace.
  cbn [w_fs w_stdin w_cwd w_trace]. by rewrite <- !app_assoc.
Qed.

(** X9: An entry the matcher cannot handle stops the listing: the lines of the
    projects before it are out, the exception of the matcher ends the
    command, and neither the later projects nor the hint are printed. *)
Theorem list_repos_stops_at_bad_entry (Z : Preferences) (Ps : list Project)
  (bad : json) (rest : list json) (e : exn) (w w1 : World) (text : string) :
  fetch_repos pf w = (Ok (JArr (map project_json Ps ++ bad :: rest)), w1) ->
  w_fs w !! config_path pf = Some (File text) ->
  ujson_loads pf text = Ok (prefs_json Z) ->
  classify bad (prefs_json Z) = Raise e ->
  list_repos pf w
  = (Raise e, with_trace (w_trace w ++ fetched ++ map (verdict_line Z) Ps) w).
Proof.
  intros Hfetch Hfile Hparse Hbad.
  rewrite (list_repos_loop w w1 text (prefs_json Z) _ Hfetch Hfile Hparse).
  rewrite bind_run, for_each_typed. cbn [for_each].
  rewrite bind_run. unfold show_project at 1, lift. rewrite bind_run, Hbad.
  unfold with_trace. cbn [w_fs w_stdin w_cwd w_trace]. by rewrite <- !app_assoc.
Qed.

End Lines.

(** ** [start_project], the other paths *)

Section Starting.

Variable pf : Platform.

Local Abbreviation fetched :=
  [EvSpinner "⏳ Fetching repos..."; EvHttpGet catalog_url; EvSpinnerFinish].

Local Abbreviation delete_prompt name :=
  ("Project at " +:+ show_path (project_path pf name)
   +:+ " already exists. Delete it (y/n)").

(** X10: The order of lines 113-124: the catalog is read and searched before
    anything is checked, so an entry the search cannot handle ends the
    command with its exception even without [git]; then a missing [git] is
    reported, whether the catalog has the project or not; only then an
    unknown name. In the last two cases the command ends without an error
    and the world is as before but for the lines shown. *)
Theorem start_project_checks (name : string) (w w1 : World) (catalog : json)
  (projects : list json) :
  fetch_repos pf w = (Ok catalog, w1) ->
  py_iter catalog = Ok projects ->
  (forall e,
     find_project name projects = Raise e ->
     start_project pf name w = (Raise e, with_trace (w_trace w ++ fetched) w))
  /\ (forall found,
        find_project name projects = Ok found ->
        which_git pf = false ->
        start_project pf name w
        = (Ok tt,
           with_trace (w_trace w ++ fetched ++ [EvEcho "Please install git first."]) w))
  /\ (find_project name projects = Ok None ->
      which_git pf = true ->
      start_project pf name w
      = (Ok tt,
         with_trace
           (w_trace w ++ fetched
            ++ [EvEcho ("Could not find project " +:+ name +:+ ".")]) w)).
Proof.
  intros Hfetch Hiter.
  assert (Hrun : start_project pf name w
                 = (project ← lift (find_project name projects);
                    if negb (which_git pf) then echo "Please install git first."
                    else
                      match project with
                      | None => echo ("Could not find project " +:+ name +:+ ".")
                      | Some project =>
                          present ← path_exists (project_path pf name);
                          if (present : bool) then
                            delete ← prompt_bool pf (delete_prompt name);
                            if (delete : bool) then
                              rmtree (project_path pf name);;
                              download_project pf name project
                            else echo "Aborting."
                          else download_project pf name project
                      end) (with_trace (w_trace w ++ fetched) w)).
  { unfold start_project. rewrite (bind_ok _ _ _ _ _ Hfetch).
    apply fetch_repos_ok in Hfetch as ->.
    unfold lift at 1. by rewrite bind_run, Hiter. }
  rewrite Hrun. unfold lift, echo, emit. repeat split.
  - intros e He. by rewrite bind_run, He.
  - intros found Hfound Hgit. rewrite bind_run, Hfound, Hgit.
    cbn [negb w_trace with_trace]. by rewrite <- app_assoc.
  - intros Hfound Hgit. rewrite bind_run, Hfound, Hgit.
    cbn [negb w_trace with_trace]. by rewrite <- app_assoc.
Qed.

(** X11: A regular file where the workspace should be: the question of line 126
    is asked, and on yes [shutil.rmtree] raises [NotADirectoryError]; the
    file is still there and nothing was cloned. *)
Theorem start_project_workspace_is_a_file (name text : string) (w w1 : World)
  (catalog project : json) (rest : list string) :
  fetch_repos pf w = (Ok catalog, w1) ->
  (exists projects, py_iter catalog = Ok projects
                    /\ find_project name projects = Ok (Some project)) ->
  which_git pf = true ->
  node_at (w_fs w) (project_path pf name) = Some (File text) ->
  read_answer (click_bool pf) (w_stdin w) = Some (true, rest) ->
  start_project pf name w
  = (Raise NotADirectoryError,
     with_stdin rest
       (with_trace
          (w_trace w ++ fetched
           ++ prompts_shown (click_bool pf) (delete_prompt name) (w_stdin w)) w)).
Proof.
  intros Hfetch (ps & Hiter & Hfind) Hgit Hfile Hyes.
  rewrite (start_project_found pf name w w1 catalog project ps) by done.
  set (w2 := with_trace _ w).
  rewrite (bind_ok _ _ w2 true w2).
  2:{ unfold path_exists. cbn [w2 w_fs with_trace].
      by rewrite Hfile, bool_decide_eq_true_2. }
  unfold prompt_bool.
  rewrite (bind_ok _ _ _ _ _ (click_prompt_answer _ _ w2 true rest Hyes)).
  rewrite bind_run. unfold rmtree, fs_update, fs_rmtree.
  cbn [w_fs w_stdin w_trace with_stdin with_trace w2]. rewrite Hfile.
  by rewrite <- app_assoc.
Qed.

Lemma project_path_cons (name : string) :
  exists c p, project_path pf name = c :: p.
Proof.
  unfold project_path. destruct (user_documents_dir pf); simpl; eauto.
Qed.

(** Lines 156-163 end with the answer to the last question or, at the end
    of the input, with [Abort]; no file is touched and no subprocess
    called. *)
Lemma download_end_run (name : string) (w : World) :
  exists r w',
    (spinner_finish;;
     echo ("✅ Project " +:+ name +:+ " downloaded to "
           +:+ show_path (project_path pf name) +:+ ".");;
     echo "";;
     echo "Remember, have fun in your 15 minutes! 😀";;
     echo ("Once you're done, run `coderelay publish-changes " +:+ name +:+ "`.");;
     open_now ← prompt_bool pf "Do you want to open the project now (y/n)";
     if (open_now : bool) then cross_platform_open_file (project_path pf name)
     else pass) w = (r, w')
    /\ (r = Ok tt \/ r = Raise Abort)
    /\ w_fs w' = w_fs w
    /\ calls (w_trace w') = calls (w_trace w).
Proof.
  unfold spinner_finish, echo, prompt_bool, click_prompt, cross_platform_open_file.
  do 5 (rewrite bind_run; cbn [emit]). rewrite bind_run.
  cbn [w_stdin w_trace with_trace].
  destruct (read_answer (click_bool pf) (w_stdin w)) as [[[|] rest]|];
    eexists _, _; (split; [reflexivity|]);
    cbn [pass mret M_ret emit w_fs w_trace with_trace with_stdin];
    (split; [by eauto|]); (split; [done|]);
    rewrite !calls_app, calls_prompts; cbn; by rewrite !app_nil_r.
Qed.

(** X12: The download that works: [start_project] has reached line 132, the
    workspace directory can be made, the catalog gives a string under
    [git], and the clone leaves the workspace with a [.gitignore] and
    nothing but a regular file, if anything, at [coderelay.json]. Then the
    only subprocess called is that clone, and the files are the ones it
    left with the rule in [.gitignore] (unless the text names
    [coderelay.json] already) and the catalog entry, dumped with
    [indent=4], in [coderelay.json]; that holds whether the last question is
    answered or the input ends there. Where [ujson] reads back what it
    dumped, the metadata file loads as the catalog entry. *)
Theorem start_project_downloads (name url G : string) (w w1 : World)
  (catalog project : json) (fs0 fs1 : gmap path node) :
  fetch_repos pf w = (Ok catalog, w1) ->
  (exists projects, py_iter catalog = Ok projects
                    /\ find_project name projects = Ok (Some project)) ->
  which_git pf = true ->
  download_begins pf name w fs0 ->
  makedirs_from [] (project_path pf name) fs0 = Ok fs1 ->
  getitem project "git" = Ok (JStr url) ->
  let argv := ["git"; "clone"; url; show_path (project_path pf name)] in
  let fs2 := run_process pf argv (w_cwd w) fs1 in
  let gitignore := project_path pf name ++ [".gitignore"] in
  let metadata := project_path pf name ++ ["coderelay.json"] in
  node_at fs2 (project_path pf name) = Some Dir ->
  fs2 !! gitignore = Some (File G) ->
  fs2 !! metadata ≠ Some Dir ->
  exists r w',
    start_project pf name w = (r, w')
    /\ (r = Ok tt \/ r = Raise Abort)
    /\ w_fs w'
       = <[metadata := File (ujson_dumps pf 4 project)]>
           (if str_contains "coderelay.json" G then fs2
            else <[gitignore := File (G +:+ ignore_rule)]> fs2)
    /\ calls (w_trace w') = calls (w_trace w) ++ [argv]
    /\ (ujson_loads pf (ujson_dumps pf 4 project) = Ok project ->
        load_json pf metadata w' = (Ok project, w')).
Proof.
  intros Hfetch Hfound Hgit Hbegin Hmk Hurl argv fs2 gitignore metadata
    Hdir Hignore Hmeta.
  destruct (start_project_download pf name w w1 catalog project fs0)
    as (wd & -> & Hfs & Hcwd & evs & Htrace & Hevs); try done.
  unfold download_project. rewrite <- Hfs in Hmk.
  rewrite (download_clone pf name url project wd fs1) by done.
  rewrite Hcwd. fold argv fs2.
  set (w2 := with_fs fs2 _).
  set (fs3 := if str_contains "coderelay.json" G then fs2
              else <[gitignore := File (G +:+ ignore_rule)]> fs2).
  rewrite (bind_ok _ _ w2 tt (with_fs fs3 w2)).
  2:{ rewrite (add_ignore_rule_run _ w2 G) by (by rewrite node_at_snoc).
      unfold fs3. by destruct (str_contains "coderelay.json" G). }
  assert (Hother : forall q, q ≠ gitignore -> fs3 !! q = fs2 !! q).
  { intros q Hq. unfold fs3.
    destruct (str_contains "coderelay.json" G); [done|].
    by rewrite lookup_insert_ne. }
  assert (Hne : metadata ≠ gitignore).
  { intros Heq. by apply app_inv_head in Heq. }
  set (fs4 := <[metadata := File (ujson_dumps pf 4 project)]> fs3).
  rewrite (bind_ok _ _ _ tt (with_fs fs4 (with_fs fs3 w2))).
  2:{ apply fs_update_ok. cbn [w_fs with_fs]. unfold fs_write, parent_error.
      rewrite node_at_snoc. fold metadata. rewrite (Hother _ Hne).
      assert (Hparent : node_at fs3 (dirname metadata) = Some Dir).
      { unfold metadata. rewrite dirname_snoc. rewrite <- Hdir.
        destruct (project_path_cons name) as (c & p & Hpp).
        rewrite Hpp, !node_at_cons. apply Hother.
        unfold gitignore. rewrite Hpp. intros Heq.
        apply (f_equal length) in Heq.
        rewrite length_app in Heq. simpl in Heq. lia. }
      rewrite Hparent.
      destruct (fs2 !! metadata) as [[|old]|]; done. }
  destruct (download_end_run name (with_fs fs4 (with_fs fs3 w2)))
    as (r & w' & -> & Hr & Hfs' & Hcalls).
  exists r, w'. split; [done|]. split; [done|].
  cbn [w_fs w_trace with_fs with_trace w2] in Hfs', Hcalls.
  split; [done|]. split.
  - rewrite Hcalls, Htrace, !calls_app, Hevs. cbn. by rewrite !app_nil_r.
  - intros Hcodec. rewrite (load_json_file pf _ w' (ujson_dumps pf 4 project)).
    + by rewrite Hcodec.
    + rewrite Hfs'. unfold metadata. rewrite node_at_snoc.
      apply lookup_insert_eq.
Qed.

End Starting.

(** ** The ignore rule over two runs *)

Section IgnoreRule.

Variable pf : Platform.






End IgnoreRule.



(** ** [publish_changes], the other paths *)

Section Publishing.

Variable pf : Platform.

Local Abbreviation staging url :=
  [["git"; "remote"; "add"; "fork"; url];
   ["git"; "remote"; "set-url"; "fork"; url];
   ["git"; "add"; "."];
   ["git"; "diff"; "--staged"; "--name-only"]].

Local Abbreviation after_processes argvs dir files :=
  (foldl (fun fs argv => run_process pf argv dir fs) files argvs).

(** X13: The three checks of lines 172-182, in their order, for a project
    name without an empty, [.] or [..] piece (so that the workspace path is
    the directory entry of that name): without the workspace the project is
    reported as not found, whether [git] is there or not; with the
    workspace but without [git], the missing [git]; with both but without
    [coderelay.json], the missing configuration. Each time the command ends
    without an error, asks nothing and calls no subprocess: the world is as
    before but for the one line. *)
Theorem publish_changes_checks (name : string) (w : World) :
  ordinary_name name ->
  (node_at (w_fs w) (project_path pf name) = None ->
   publish_changes pf name w
   = (Ok tt,
      with_trace
        (w_trace w ++ [EvEcho ("Could not find project " +:+ name +:+ ".")]) w))
  /\ (is_Some (node_at (w_fs w) (project_path pf name)) ->
      which_git pf = false ->
      publish_changes pf name w
      = (Ok tt, with_trace (w_trace w ++ [EvEcho "Please install git first."]) w))
  /\ (is_Some (node_at (w_fs w) (project_path pf name)) ->
      which_git pf = true ->
      w_fs w !! (project_path pf name ++ ["coderelay.json"]) = None ->
      publish_changes pf name w
      = (Ok tt,
         with_trace (w_trace w ++ [EvEcho "Could not find project config."]) w)).
Proof.
  intros _. unfold publish_changes, path_exists. repeat split.
  - intros Hnone. rewrite bind_run, Hnone.
    by rewrite bool_decide_eq_false_2 by (by intros [? ?]).
  - intros Hsome Hgit. by rewrite bind_run, bool_decide_eq_true_2, Hgit.
  - intros Hsome Hgit Hnone.
    rewrite bind_run, bool_decide_eq_true_2, Hgit by done. cbn [negb].
    rewrite bind_run, node_at_snoc, Hnone.
    by rewrite bool_decide_eq_false_2 by (by intros [? ?]).
Qed.

Lemma split_on_length (sep : ascii) (s : string) :
  length (split_on sep s) = S (count_char sep s).
Proof.
  induction s as [|c s IH]; [done|]. cbn [split_on count_char].
  destruct (Ascii.eqb c sep); cbn [length Nat.add]; [by rewrite IH|].
  destruct (split_on sep s) as [|piece pieces]; [done|]. by rewrite <- IH.
Qed.

(** The run of [publish_changes] up to the answer to line 210. *)
Lemma publish_until_answer (name text url : string) (w : World)
  (project_config upstream : json) (rest rest' : list string) (answer : bool) :
  node_at (w_fs w) (project_path pf name) = Some Dir ->
  which_git pf = true ->
  w_fs w !! (project_path pf name ++ ["coderelay.json"]) = Some (File text) ->
  ujson_loads pf text = Ok project_config ->
  getitem project_config "git" = Ok upstream ->
  read_answer Some (w_stdin w) = Some (url, rest) ->
  read_answer (click_bool pf) rest = Some (answer, rest') ->
  exists wa evs,
    publish_changes pf name w
       = (if negb answer then echo "Aborting."
          else
            echo "⏳ Uploading your code...";;
            body ← lift (task ← getitem project_config "task";
                         desc ← getitem task "desc";
                         as_str desc);
            subprocess_call pf ["git"; "commit"; "-m"; "Code Relay"; "-m"; body];;
            subprocess_call pf ["git"; "push"; "fork"];;
            echo "✅ Your code has been uploaded.";;
            echo "Now, you need to tell code-relay that you're done.";;
            echo "Go to the link below, and click 'Create pull request' twice.";;
            upstream ← lift (getitem project_config "git");
            owner ← lift (match split_on slash url !! 3%nat with
                          | Some segment => Ok segment
                          | None => Raise IndexError
                          end);
            echo (py_str pf upstream +:+ "/compare/main..." +:+ owner +:+ ":main")) wa
    /\ w_fs wa = after_processes (staging url) (project_path pf name) (w_fs w)
    /\ w_stdin wa = rest'
    /\ w_trace wa = w_trace w ++ evs
    /\ calls evs = staging url.
Proof.
  intros Hdir Hgit Hmeta Hparse Hup Hurl Hanswer.
  destruct (publish_to_stage pf name text url w project_config upstream rest)
    as (wu & evs1 & -> & Hfs1 & Hin1 & Htr1 & Hcalls1); try done.
  destruct (stage_changes_run pf name url wu)
    as (ws & evs2 & Hstage & Hfs2 & Hin2 & Htr2 & Hcalls2).
  { by rewrite Hfs1. }
  rewrite (bind_ok _ _ _ _ _ Hstage). unfold confirm_and_upload, prompt_bool.
  rewrite bind_run, click_prompt_answer with (a := answer) (rest := rest')
    by (by rewrite Hin2, Hin1).
  eexists _, (evs1 ++ evs2 ++ _). split; [reflexivity|].
  cbn [w_fs w_stdin w_trace with_trace with_stdin].
  repeat split.
  - by rewrite Hfs2, Hfs1.
  - by rewrite Htr2, Htr1, <- !app_assoc.
  - by rewrite !calls_app, Hcalls1, Hcalls2, calls_prompts, app_nil_r.
Qed.

(** X14: A confirmed publication whose metadata gives no string under
    [task.desc] (line 216): the exception of that lookup ends the command
    after the line that announces the upload; the remote is set and the
    changes are staged, but nothing is committed or pushed. *)
Theorem publish_changes_without_task (name text url : string) (w : World)
  (project_config upstream : json) (rest rest' : list string) (e : exn) :
  node_at (w_fs w) (project_path pf name) = Some Dir ->
  which_git pf = true ->
  w_fs w !! (project_path pf name ++ ["coderelay.json"]) = Some (File text) ->
  ujson_loads pf text = Ok project_config ->
  getitem project_config "git" = Ok upstream ->
  read_answer Some (w_stdin w) = Some (url, rest) ->
  read_answer (click_bool pf) rest = Some (true, rest') ->
  (task ← getitem project_config "task"; desc ← getitem task "desc"; as_str desc)
  = Raise e ->
  exists w',
    publish_changes pf name w = (Raise e, w')
    /\ calls (w_trace w') = calls (w_trace w) ++ staging url
    /\ last (w_trace w') = Some (EvEcho "⏳ Uploading your code...")
    /\ w_fs w' = after_processes (staging url) (project_path pf name) (w_fs w).
Proof.
  intros Hdir Hgit Hmeta Hparse Hup Hurl Hyes Hbody.
  destruct (publish_until_answer name text url w project_config upstream
              rest rest' true)
    as (wa & evs & -> & Hfs & _ & Htrace & Hcalls); try done.
  cbn [negb]. unfold echo, lift. rewrite bind_run; cbn [emit].
  rewrite bind_run, Hbody.
  eexists. split; [reflexivity|]. cbn [w_fs w_trace with_trace].
  split; [|split; [apply last_snoc|done]].
  rewrite Htrace, !calls_app, Hcalls. cbn. by rewrite app_nil_r.
Qed.

(** X15: A confirmed publication with a fork URL that has fewer than three
    [/]: the split of line 222 has no piece at index 3, so after the commit
    and the push the command ends with [IndexError]; the last line shown is
    the one that announces the link, and no link follows. *)
Theorem publish_changes_short_url (name text url upstream body : string)
  (w : World) (project_config task : json) (rest rest' : list string) :
  node_at (w_fs w) (project_path pf name) = Some Dir ->
  which_git pf = true ->
  w_fs w !! (project_path pf name ++ ["coderelay.json"]) = Some (File text) ->
  ujson_loads pf text = Ok project_config ->
  getitem project_config "git" = Ok (JStr upstream) ->
  getitem project_config "task" = Ok task ->
  getitem task "desc" = Ok (JStr body) ->
  read_answer Some (w_stdin w) = Some (url, rest) ->
  read_answer (click_bool pf) rest = Some (true, rest') ->
  count_char slash url < 3 ->
  exists w',
    publish_changes pf name w = (Raise IndexError, w')
    /\ calls (w_trace w')
       = calls (w_trace w) ++ staging url
         ++ [["git"; "commit"; "-m"; "Code Relay"; "-m"; body];
             ["git"; "push"; "fork"]]
    /\ last (w_trace w')
       = Some (EvEcho "Go to the link below, and click 'Create pull request' twice.").
Proof.
  intros Hdir Hgit Hmeta Hparse Hup Htask Hdesc Hurl Hyes Hshort.
  destruct (publish_until_answer name text url w project_config (JStr upstream)
              rest rest' true)
    as (wa & evs & -> & _ & _ & Htrace & Hcalls); try done.
  assert (Hnone : split_on slash url !! 3%nat = None).
  { apply lookup_ge_None. rewrite split_on_length. lia. }
  cbn [negb]. unfold echo, lift, subprocess_call.
  rewrite bind_run; cbn [emit].
  rewrite bind_run, Htask. cbn [mbind outcome_bind]. rewrite Hdesc.
  cbn [mbind outcome_bind as_str].
  do 5 (rewrite bind_run; cbn [emit]).
  rewrite bind_run, Hup, bind_run, Hnone.
  eexists. split; [reflexivity|].
  cbn [w_fs w_cwd w_trace with_fs with_trace].
  split; [|apply last_snoc].
  rewrite Htrace, !calls_app, Hcalls. cbn.
  by rewrite !app_nil_r, <- !app_assoc.
Qed.

End Publishing.

(** ** [user_prefs] on an existing preference file *)

Section Showing.

Variable pf : Platform.

Local Abbreviation change_prompt := "Do you want to change your preferences (y/n)".

Local Abbreviation header :=
  [EvEcho "Your preferences:";
   EvSecho "Languages/frameworks are represented in an ID-ish format based on the full name (eg Tailwind CSS > tailwindcss)" Dim].

(** X16: With a preference file that holds the three keys, [user_prefs] shows
    the three values and asks; the file is opened exactly when the answer is
    yes, after which the command returns. The file system is the one the
    command found: the program itself never writes an existing preference
    file. *)
Theorem user_prefs_shows (w : World) (text : string)
  (config languages frameworks excluded : json) (answer : bool)
  (rest : list string) :
  w_fs w !! config_path pf = Some (File text) ->
  ujson_loads pf text = Ok config ->
  getitem config "languages" = Ok languages ->
  getitem config "frameworks" = Ok frameworks ->
  getitem config "excluded_frameworks" = Ok excluded ->
  read_answer (click_bool pf) (w_stdin w) = Some (answer, rest) ->
  user_prefs pf w
  = (Ok tt,
     with_stdin rest
       (with_trace
          (w_trace w ++ header
           ++ [EvEcho ("Languages: " +:+ py_str pf languages);
               EvEcho ("Frameworks: " +:+ py_str pf frameworks);
               EvEcho ("Excluded frameworks: " +:+ py_str pf excluded);
               EvEcho ""]
           ++ prompts_shown (click_bool pf) change_prompt (w_stdin w)
           ++ (if answer then [EvOpenFile (config_path pf)] else [])) w)).
Proof.
  intros Hfile Hparse Hl Hf Hx Hanswer. unfold user_prefs.
  rewrite (bind_ok _ _ w config w)
    by (by rewrite (load_existing pf w text), Hparse).
  unfold echo, secho, lift, prompt_bool, cross_platform_open_file.
  do 2 (rewrite bind_run; cbn [emit]).
  rewrite bind_run, Hl. rewrite bind_run; cbn [emit].
  rewrite bind_run, Hf. rewrite bind_run; cbn [emit].
  rewrite bind_run, Hx. do 2 (rewrite bind_run; cbn [emit]).
  rewrite bind_run, click_prompt_answer with (a := answer) (rest := rest) by done.
  destruct answer; unfold pass, emit, with_trace, with_stdin;
    cbn [mret M_ret w_fs w_stdin w_cwd w_trace];
    by rewrite <- ?app_assoc, ?app_nil_r.
Qed.

(** X17: A preference file without one of the keys: the values are read one by
    one while they are shown, so the command prints what comes before the
    missing key and ends with the [KeyError] (or the [TypeError] of a file
    that is not an object); nothing is asked and the file stays. *)
Theorem user_prefs_missing_key (w : World) (text : string) (config : json)
  (e : exn) :
  w_fs w !! config_path pf = Some (File text) ->
  ujson_loads pf text = Ok config ->
  (getitem config "languages" = Raise e ->
   user_prefs pf w = (Raise e, with_trace (w_trace w ++ header) w))
  /\ (forall languages,
        getitem config "languages" = Ok languages ->
        getitem config "frameworks" = Raise e ->
        user_prefs pf w
        = (Raise e,
           with_trace
             (w_trace w ++ header
              ++ [EvEcho ("Languages: " +:+ py_str pf languages)]) w))
  /\ (forall languages frameworks,
        getitem config "languages" = Ok languages ->
        getitem config "frameworks" = Ok frameworks ->
        getitem config "excluded_frameworks" = Raise e ->
        user_prefs pf w
        = (Raise e,
           with_trace
             (w_trace w ++ header
              ++ [EvEcho ("Languages: " +:+ py_str pf languages);
                  EvEcho ("Frameworks: " +:+ py_str pf frameworks)]) w)).
Proof.
  intros Hfile Hparse. unfold user_prefs.
  rewrite (bind_ok _ _ w config w)
    by (by rewrite (load_existing pf w text), Hparse).
  unfold echo, secho, lift.
  do 2 (rewrite bind_run; cbn [emit]).
  repeat split.
  - intros Hl. rewrite bind_run, Hl. unfold with_trace.
    cbn [w_fs w_stdin w_cwd w_trace]. by rewrite <- !app_assoc.
  - intros languages Hl Hf. rewrite bind_run, Hl. rewrite bind_run; cbn [emit].
    rewrite bind_run, Hf. unfold with_trace.
    cbn [w_fs w_stdin w_cwd w_trace]. by rewrite <- !app_assoc.
  - intros languages frameworks Hl Hf Hx.
    rewrite bind_run, Hl. rewrite bind_run; cbn [emit].
    rewrite bind_run, Hf. rewrite bind_run; cbn [emit].
    rewrite bind_run, Hx. unfold with_trace.
    cbn [w_fs w_stdin w_cwd w_trace]. by rewrite <- !app_assoc.
Qed.

End Showing.

(** ** The further properties at concrete inputs *)

Lemma fetch_repos_outcomes_witness :
  fetch_repos Demo.offline (Demo.world Demo.fresh_fs [])
  = (Raise ConnectionError,
     with_trace [EvSpinner "⏳ Fetching repos..."; EvHttpGet catalog_url]
       (Demo.world Demo.fresh_fs [])).
Proof.
  destruct (fetch_repos_outcomes Demo.offline (Demo.world Demo.fresh_fs []))
    as [Hread _].
  apply (Hread ConnectionError). reflexivity.
Defined.

Lemma classify_order_irrelevant_witness :
  classify
    (project_json
       {| p_name := "web"; p_desc := "a site"; p_languages := ["python"];
          p_frameworks := ["flask"; "django"];
          p_git := "https://example.com/web.git"; p_task_desc := "fix a view" |})
    (prefs_json Demo.no_django)
  = classify (project_json Demo.web_app) (prefs_json Demo.no_django).
Proof.
  apply classify_order_irrelevant; intros x; try reflexivity.
  cbn [p_frameworks Demo.web_app]. rewrite !elem_of_cons. tauto.
Defined.

Lemma classify_reads_keys_lazily_witness :
  classify (project_json Demo.foo) (JObj []) = Raise (KeyError "languages").
Proof.
  destruct (classify_reads_keys_lazily Demo.foo) as (_ & Hmissing & _).
  apply Hmissing; [discriminate|reflexivity].
Defined.

Lemma classify_string_preferences_witness :
  classify
    (project_json
       {| p_name := "applet"; p_desc := "a plugin"; p_languages := ["java"];
          p_frameworks := []; p_git := "https://example.com/applet.git";
          p_task_desc := "update the build" |})
    (JObj [("languages", JStr "javascript"); ("frameworks", JArr []);
           ("excluded_frameworks", JArr [])])
  = Ok good_match.
Proof.
  apply (classify_string_preferences
           {| p_name := "applet"; p_desc := "a plugin"; p_languages := ["java"];
              p_frameworks := []; p_git := "https://example.com/applet.git";
              p_task_desc := "update the build" |}
           "javascript").
  reflexivity.
Defined.

Lemma find_project_first_witness :
  project_json Demo.bare ∈ [project_json Demo.foo; project_json Demo.bare]
  /\ getitem (project_json Demo.bare) "name" = Ok (JStr "bare").
Proof.
  destruct (find_project_first "bare") as (_ & Hfound & _).
  apply Hfound. vm_compute. reflexivity.
Defined.

Lemma list_repos_prints_witness :
  list_repos Demo.platform (Demo.world Demo.python_prefs_fs [])
  = (Ok tt,
     with_trace
       [EvSpinner "⏳ Fetching repos..."; EvHttpGet catalog_url; EvSpinnerFinish;
        verdict_line Demo.python_only Demo.foo;
        verdict_line Demo.python_only Demo.bare;
        EvEcho "Get started on one by running `coderelay start-project <project-name>`."]
       (Demo.world Demo.python_prefs_fs [])).
Proof.
  apply (list_repos_prints Demo.platform Demo.python_only [Demo.foo; Demo.bare]
           (Demo.world Demo.python_prefs_fs [])
           (fetch_repos Demo.platform (Demo.world Demo.python_prefs_fs [])).2
           (Demo.dumps 0 (prefs_json Demo.python_only))).
  - vm_compute. reflexivity.
  - vm_compute. reflexivity.
  - vm_compute. reflexivity.
Defined.

Lemma list_repos_stops_at_bad_entry_witness :
  list_repos Demo.broken (Demo.world Demo.python_prefs_fs [])
  = (Raise (KeyError "languages"),
     with_trace
       [EvSpinner "⏳ Fetching repos..."; EvHttpGet catalog_url; EvSpinnerFinish;
        verdict_line Demo.python_only Demo.foo]
       (Demo.world Demo.python_prefs_fs [])).
Proof.
  apply (list_repos_stops_at_bad_entry Demo.broken Demo.python_only [Demo.foo]
           Demo.half [project_json Demo.bare] (KeyError "languages")
           (Demo.world Demo.python_prefs_fs [])
           (fetch_repos Demo.broken (Demo.world Demo.python_prefs_fs [])).2
           (Demo.dumps 0 (prefs_json Demo.python_only))).
  - vm_compute. reflexivity.
  - vm_compute. reflexivity.
  - vm_compute. reflexivity.
  - reflexivity.
Defined.

Lemma start_project_checks_witness :
  start_project Demo.gitless "foo" (Demo.world Demo.fresh_fs [])
  = (Ok tt,
     with_trace
       [EvSpinner "⏳ Fetching repos..."; EvHttpGet catalog_url; EvSpinnerFinish;
        EvEcho "Please install git first."]
       (Demo.world Demo.fresh_fs [])).
Proof.
  destruct (start_project_checks Demo.gitless "foo" (Demo.world Demo.fresh_fs [])
              (fetch_repos Demo.gitless (Demo.world Demo.fresh_fs [])).2
              (JArr [project_json Demo.foo; project_json Demo.bare])
              [project_json Demo.foo; project_json Demo.bare])
    as (_ & Hgit & _).
  - vm_compute. reflexivity.
  - reflexivity.
  - apply (Hgit (Some (project_json Demo.foo))); [by vm_compute|reflexivity].
Defined.

Lemma start_project_workspace_is_a_file_witness :
  (start_project Demo.platform "foo" (Demo.world Demo.file_fs ["y"])).1
  = Raise NotADirectoryError.
Proof.
  rewrite (start_project_workspace_is_a_file Demo.platform "foo" "notes"
             (Demo.world Demo.file_fs ["y"])
             (fetch_repos Demo.platform (Demo.world Demo.file_fs ["y"])).2
             (JArr [project_json Demo.foo; project_json Demo.bare])
             (project_json Demo.foo) []).
  - reflexivity.
  - vm_compute. reflexivity.
  - exists [project_json Demo.foo; project_json Demo.bare]. by vm_compute.
  - reflexivity.
  - vm_compute. reflexivity.
  - vm_compute. reflexivity.
Defined.

Lemma start_project_downloads_witness :
  exists r w',
    start_project Demo.platform "foo" (Demo.world Demo.fresh_fs ["n"]) = (r, w')
    /\ w_fs w' !! (Demo.foo_workspace ++ ["coderelay.json"])
       = Some (File (Demo.dumps 4 (project_json Demo.foo)))
    /\ load_json Demo.platform (Demo.foo_workspace ++ ["coderelay.json"]) w'
       = (Ok (project_json Demo.foo), w').
Proof.
  set (w0 := Demo.world Demo.fresh_fs ["n"]).
  set (fs1 := <[Demo.foo_workspace := Dir]>
                (<[["home"; "dev"; "Documents"; "code-relay"] := Dir]> Demo.fresh_fs)).
  destruct (start_project_downloads Demo.platform "foo"
              "https://example.com/foo.git" ("node_modules" +:+ nl)
              w0 (fetch_repos Demo.platform w0).2
              (JArr [project_json Demo.foo; project_json Demo.bare])
              (project_json Demo.foo) Demo.fresh_fs fs1)
    as (r & w' & Hrun & _ & Hfs & _ & Hload).
  - vm_compute. reflexivity.
  - exists [project_json Demo.foo; project_json Demo.bare]. by vm_compute.
  - reflexivity.
  - apply (begins_fresh Demo.platform "foo" w0). vm_compute. reflexivity.
  - vm_cast_no_check (eq_refl (Ok fs1)).
  - reflexivity.
  - vm_compute. reflexivity.
  - vm_compute. reflexivity.
  - vm_compute. discriminate.
  - exists r, w'. split; [exact Hrun|]. split.
    + rewrite Hfs. apply lookup_insert_eq.
    + apply Hload. vm_compute. reflexivity.
Defined.

Lemma publish_changes_checks_witness :
  publish_changes Demo.platform "foo" (Demo.world Demo.fresh_fs [])
  = (Ok tt,
     with_trace [EvEcho "Could not find project foo."] (Demo.world Demo.fresh_fs [])).
Proof.
  destruct (publish_changes_checks Demo.platform "foo" (Demo.world Demo.fresh_fs []))
    as (Hmissing & _).
  - repeat constructor; discriminate.
  - apply Hmissing. vm_compute. reflexivity.
Defined.

Lemma publish_changes_without_task_witness :
  exists w',
    publish_changes Demo.platform "foo"
      (Demo.world Demo.taskless_fs ["https://github.com/dev/foo"; "y"])
    = (Raise (KeyError "task"), w')
    /\ calls (w_trace w')
       = [["git"; "remote"; "add"; "fork"; "https://github.com/dev/foo"];
          ["git"; "remote"; "set-url"; "fork"; "https://github.com/dev/foo"];
          ["git"; "add"; "."];
          ["git"; "diff"; "--staged"; "--name-only"]].
Proof.
  destruct (publish_changes_without_task Demo.platform "foo"
              (Demo.dumps 4 Demo.taskless) "https://github.com/dev/foo"
              (Demo.world Demo.taskless_fs ["https://github.com/dev/foo"; "y"])
              Demo.taskless (JStr "https://example.com/foo.git") ["y"] []
              (KeyError "task"))
    as (w' & Hrun & Hcalls & _).
  - vm_compute. reflexivity.
  - reflexivity.
  - vm_compute. reflexivity.
  - vm_compute. reflexivity.
  - reflexivity.
  - reflexivity.
  - reflexivity.
  - reflexivity.
  - exists w'. split; [exact Hrun|exact Hcalls].
Defined.

Lemma publish_changes_short_url_witness :
  exists w',
    publish_changes Demo.platform "foo"
      (Demo.world Demo.workspace_fs ["github.com/dev/foo"; "y"])
    = (Raise IndexError, w')
    /\ last (w_trace w')
       = Some (EvEcho "Go to the link below, and click 'Create pull request' twice.").
Proof.
  destruct (publish_changes_short_url Demo.platform "foo"
              (Demo.dumps 4 (project_json Demo.foo)) "github.com/dev/foo"
              "https://example.com/foo.git" "fix the typo"
              (Demo.world Demo.workspace_fs ["github.com/dev/foo"; "y"])
              (project_json Demo.foo) (JObj [("desc", JStr "fix the typo")])
              ["y"] [])
    as (w' & Hrun & _ & Hlast).
  - vm_compute. reflexivity.
  - reflexivity.
  - vm_compute. reflexivity.
  - vm_compute. reflexivity.
  - reflexivity.
  - reflexivity.
  - reflexivity.
  - reflexivity.
  - reflexivity.
  - vm_compute. lia.
  - exists w'. split; [exact Hrun|exact Hlast].
Defined.

Lemma user_prefs_shows_witness :
  (user_prefs Demo.platform (Demo.world Demo.python_prefs_fs ["y"])).1 = Ok tt
  /\ last (w_trace (user_prefs Demo.platform
                      (Demo.world Demo.python_prefs_fs ["y"])).2)
     = Some (EvOpenFile ["home"; "dev"; ".config"; "coderelay"; "coderelay.json"]).
Proof.
  rewrite (user_prefs_shows Demo.platform (Demo.world Demo.python_prefs_fs ["y"])
             (Demo.dumps 0 (prefs_json Demo.python_only))
             (prefs_json Demo.python_only)
             (tags ["python"]) (tags []) (tags []) true []).
  - split; reflexivity.
  - vm_compute. reflexivity.
  - vm_compute. reflexivity.
  - reflexivity.
  - reflexivity.
  - reflexivity.
  - reflexivity.
Defined.

Lemma user_prefs_missing_key_witness :
  user_prefs Demo.platform (Demo.world Demo.empty_prefs_fs [])
  = (Raise (KeyError "languages"),
     with_trace
       [EvEcho "Your preferences:";
        EvSecho "Languages/frameworks are represented in an ID-ish format based on the full name (eg Tailwind CSS > tailwindcss)" Dim]
       (Demo.world Demo.empty_prefs_fs [])).
Proof.
  destruct (user_prefs_missing_key Demo.platform (Demo.world Demo.empty_prefs_fs [])
              "{}" (JObj []) (KeyError "languages"))
    as (Hfirst & _).
  - vm_compute. reflexivity.
  - vm_compute. reflexivity.
  - apply Hfirst. reflexivity.
Defined.

(** A [for] loop over a string visits its characters, not its bytes. *)
Example py_iter_characters :
  py_iter (JStr "a⏳b") = Ok [JStr "a"; JStr "⏳"; JStr "b"].
Proof. reflexivity. Qed.
